(** * line_analyzer: the observation ingestion function

    A shallow embedding of [functions/anlyze_line_image.go] and of the
    library functions it calls (path/filepath, strings, strconv, time,
    errors), followed by the properties of the object-name parser, of the
    detection loops and of the orchestration in [AnalyzeLineImage]. *)

From Stdlib Require Import Floats ZArith List String Ascii Bool Lia.
Import ListNotations.

Set Warnings "-inexact-float".

Local Open Scope string_scope.
Local Open Scope Z_scope.

(** ** Go run-time outcomes *)

(** A run-time panic of the Go program. *)
Inductive panic : Type :=
| IndexOutOfRange (index len : nat)
| NilDereference.

(** How a Go call ends: it returns, it panics, or the process exits
    ([os.Exit], reached through [log.Fatal]). *)
Inductive result (A : Type) : Type :=
| Done (a : A)
| Panic (p : panic)
| Exit (status : Z).

Arguments Done {A} a.
Arguments Panic {A} p.
Arguments Exit {A} status.

Definition rbind {A B : Type} (r : result A) (k : A -> result B) : result B :=
  match r with
  | Done a => k a
  | Panic p => Panic p
  | Exit s => Exit s
  end.

(** [l[i]] on a slice: panics out of range. *)
Definition index {A : Type} (l : list A) (i : nat) : result A :=
  match nth_error l i with
  | Some a => Done a
  | None => Panic (IndexOutOfRange i (List.length l))
  end.

(** [*p] on a pointer: panics on nil. *)
Definition deref {A : Type} (p : option A) : result A :=
  match p with
  | Some a => Done a
  | None => Panic NilDereference
  end.

(** ** Errors *)

Inductive strconvErr : Type := ErrSyntax | ErrRange.

(** Go [error] values: [strconv.NumError], the errors of the external
    services (opaque), [errors.Errorf] and [errors.Wrap]/[errors.Wrapf]. *)
Inductive error : Type :=
| NumError (func num : string) (err : strconvErr)
| ServiceError (msg : string)
| Errorf (msg : string)
| Wrapped (cause : error) (msg : string).

(** [errors.Wrap(err, msg)] for a non-nil [err]. *)
Definition Wrap (err : error) (msg : string) : error := Wrapped err msg.

(** ** Bytes of a string *)

Definition byte_of (c : ascii) : Z := Z.of_N (N_of_ascii c).

Definition bytes (s : string) : list ascii := list_ascii_of_string s.
Definition str (l : list ascii) : string := string_of_list_ascii l.

Definition len (s : string) : nat := String.length s.

(** [s[:n]] *)
Definition slice_to (s : string) (n : nat) : string := String.substring 0 n s.

Fixpoint dropWhile {A : Type} (p : A -> bool) (l : list A) : list A :=
  match l with
  | [] => []
  | a :: l' => if p a then dropWhile p l' else l
  end.

Fixpoint takeWhile {A : Type} (p : A -> bool) (l : list A) : list A :=
  match l with
  | [] => []
  | a :: l' => if p a then a :: takeWhile p l' else []
  end.

(** ** path/filepath (Unix) *)

Module filepath.

Definition IsPathSeparator (c : ascii) : bool := Ascii.eqb c "/".

(** [for i := len(path)-1; i >= 0 && !os.IsPathSeparator(path[i]); i--]:
    [r] is [path[:i+1]] reversed and [acc] is [path[i+1:]]. *)
Fixpoint ext_scan (r acc : list ascii) : list ascii :=
  match r with
  | [] => []
  | c :: r' =>
      if IsPathSeparator c then []
      else if Ascii.eqb c "." then c :: acc
      else ext_scan r' (c :: acc)
  end.

Definition Ext (path : string) : string :=
  str (ext_scan (rev (bytes path)) []).

Definition Base (path : string) : string :=
  if String.eqb path "" then "."
  else
    (* strip trailing slashes *)
    let r := dropWhile IsPathSeparator (rev (bytes path)) in
    (* the volume name is empty; find the last element *)
    let elem := rev (takeWhile (fun c => negb (IsPathSeparator c)) r) in
    (* if empty now, it had only slashes *)
    match elem with
    | [] => "/"
    | _ => str elem
    end.

End filepath.

(** ** strings *)

Module strings.

(** [strings.Split(s, sep)] for a separator of one byte. *)
Fixpoint Split (s : string) (sep : ascii) : list string :=
  match s with
  | EmptyString => [""]
  | String c s' =>
      if Ascii.eqb c sep then "" :: Split s' sep
      else match Split s' sep with
           | h :: t => String c h :: t
           | [] => [String c ""]
           end
  end.

End strings.

(** ** strconv, at base 10 and bit size 64 *)

Module strconv.

Definition maxUint64 : Z := 2 ^ 64 - 1.
Definition base : Z := 10.
(** the smallest number such that [cutoff*base > maxUint64] *)
Definition cutoff : Z := maxUint64 / base + 1.
Definition maxVal : Z := 2 ^ 64 - 1.

Definition wrap64 (z : Z) : Z := z mod 2 ^ 64.

Definition lower (c : Z) : Z := Z.lor c 32.

(** The loop of [ParseUint]: [n] is the value so far. *)
Fixpoint parseUint_loop (s : string) (n : Z) : Z * option strconvErr :=
  match s with
  | EmptyString => (n, None)
  | String c s' =>
      let b := byte_of c in
      let digit :=
        if (48 <=? b) && (b <=? 57) then Some (b - 48)
        else if (97 <=? lower b) && (lower b <=? 122) then Some (lower b - 97 + 10)
        else None in
      match digit with
      | None => (0, Some ErrSyntax)
      | Some d =>
          if base <=? d then (0, Some ErrSyntax)
          else if cutoff <=? n then (maxVal, Some ErrRange)
          else
            let n' := wrap64 (n * base) in
            let n1 := wrap64 (n' + d) in
            if (n1 <? n') || (maxVal <? n1) then (maxVal, Some ErrRange)
            else parseUint_loop s' n1
      end
  end.

Definition ParseUint (s : string) : Z * option strconvErr :=
  match s with
  | EmptyString => (0, Some ErrSyntax)
  | _ => parseUint_loop s 0
  end.

(** [strconv.ParseInt(s, 10, 64)] *)
Definition ParseInt (s0 : string) : Z * option error :=
  match s0 with
  | EmptyString => (0, Some (NumError "ParseInt" s0 ErrSyntax))
  | String c rest =>
      let neg := Ascii.eqb c "-" in
      let s := if Ascii.eqb c "+" then rest else if neg then rest else s0 in
      match ParseUint s with
      | (_, Some ErrSyntax) => (0, Some (NumError "ParseInt" s0 ErrSyntax))
      | (un, _) =>
          let cutoff := 2 ^ 63 in
          if negb neg && (cutoff <=? un) then
            (cutoff - 1, Some (NumError "ParseInt" s0 ErrRange))
          else if neg && (cutoff <? un) then
            (- cutoff, Some (NumError "ParseInt" s0 ErrRange))
          else (if neg then - un else un, None)
      end
  end.

End strconv.

(** ** time *)

Module time.

Inductive Location : Type := UTC | Local.

(** [time.Time]: the wall and ext words and the location. *)
Record Time : Type := mkTime { wall : Z; ext : Z; loc : Location }.

Definition wrapInt64 (z : Z) : Z := (z + 2 ^ 63) mod 2 ^ 64 - 2 ^ 63.

Definition unixToInternal : Z := (1969 * 365 + 1969 / 4 - 1969 / 100 + 1969 / 400) * 86400.
Definition internalToUnix : Z := - unixToInternal.

(** The zero value [time.Time{}]: January 1, year 1, 00:00:00 UTC. *)
Definition zero : Time := mkTime 0 0 UTC.

(** [time.Unix(sec, nsec)] *)
Definition Unix (sec nsec : Z) : Time :=
  let '(sec, nsec) :=
    if (nsec <? 0) || (1000000000 <=? nsec) then
      let n := Z.quot nsec 1000000000 in
      let sec := wrapInt64 (sec + n) in
      let nsec := nsec - n * 1000000000 in
      if nsec <? 0 then (wrapInt64 (sec - 1), nsec + 1000000000) else (sec, nsec)
    else (sec, nsec) in
  mkTime nsec (wrapInt64 (sec + unixToInternal)) Local.

(** [t.Local()]; times built by [Unix] carry no monotonic reading. *)
Definition toLocal (t : Time) : Time := mkTime (wall t) (ext t) Local.

(** [t.Unix()]: seconds since the epoch. *)
Definition unixSec (t : Time) : Z := wrapInt64 (ext t + internalToUnix).

End time.

(** ** The object-name parser *)

(** [getMetaFromObjName]: shop id, observation time and error. *)
Definition getMetaFromObjName (objName : string)
  : result (string * time.Time * option error) :=
  let name := filepath.Base (slice_to objName (len objName - len (filepath.Ext objName))) in
  let objMetas := strings.Split name "_" in
  rbind (index objMetas 0) (fun shopID =>
  rbind (index objMetas 1) (fun second =>
  match strconv.ParseInt second with
  | (_, Some err) => Done (shopID, time.zero, Some err)
  | (unixTime, None) => Done (shopID, time.toLocal (time.Unix unixTime 0), None)
  end)).

(** ** Records of the function *)

Definition fastLaneDataset : string := "fast_lane".
Definition lineObservationTable : string := "line_observation".
Definition waitingCustomerMetaTable : string := "waiting_customer_meta".

Record gcsEvent : Type := {
  Bucket : string;
  ObjectName : string;
  ContentType : string
}.

Record lineObservation : Type := {
  ID : string;
  ShopID : string;
  WaitingPeopleNum : Z;
  ObservedAt : time.Time;
  CreatedAt : time.Time
}.

Record waitingCustomerMeta : Type := {
  LineObservationID : string;
  Gender : string;
  GenderConfidence : float;
  LowestAge : Z;
  HighestAge : Z;
  Confidence : float
}.

(** ** The shapes of the detection service (aws-sdk-go, rekognition)

    Every field of the SDK's output structs is a pointer ([option] here);
    slices hold pointers to their elements. *)

Module rekognition.

Module Instance.
Record t : Type := { Confidence : option float }.
End Instance.

Module Label.
Record t : Type := {
  Name : option string;
  Confidence : option float;
  Instances : list (option Instance.t)
}.
End Label.

Module Gender.
Record t : Type := { Value : option string; Confidence : option float }.
End Gender.

Module AgeRange.
Record t : Type := { Low : option Z; High : option Z }.
End AgeRange.

Module FaceDetail.
Record t : Type := {
  Gender : option Gender.t;
  AgeRange : option AgeRange.t;
  Confidence : option float
}.
End FaceDetail.

Record DetectLabelsOutput : Type := { Labels : list (option Label.t) }.
Record DetectFacesOutput : Type := { FaceDetails : list (option FaceDetail.t) }.

End rekognition.

(** ** The world outside the function *)

(** An [io.Reader] over the object: what [ioutil.ReadAll] gets from it. *)
Record Reader : Type := { contents : error + list ascii }.

(** A row of either table of the analytics store. *)
Inductive row : Type :=
| ObservationRow (lo : lineObservation)
| MetaRow (c : waitingCustomerMeta).

(** The answers of the collaborators of one invocation: clock, environment,
    object source, identifier generator, detection service and store. *)
Record World : Type := {
  time_Now : time.Time;
  storage_NewClient : option error;
  os_Getenv : string -> string;
  bigquery_NewClient : string -> option error;
  xid_New : string;
  Object_NewReader : string -> string -> error + Reader;
  session_NewSession : option error;
  DetectLabels : list ascii -> error + rekognition.DetectLabelsOutput;
  DetectFaces : list ascii -> error + rekognition.DetectFacesOutput;
  Tabledata_InsertAll : string -> string -> list row -> option error
}.

(** The calls an invocation makes, with what they answered. *)
Inductive event : Type :=
| CallTimeNow (t : time.Time)
| CallStorageNewClient (r : option error)
| CallGetenv (key value : string)
| CallLogFatal (err : error)
| CallBigqueryNewClient (projectID : string) (r : option error)
| CallXidNew (id : string)
| CallGetMeta (objName : string)
| CallNewReader (bucket name : string) (r : option error)
| CallNewSession (r : option error)
| CallReadAll (r : error + list ascii)
| CallDetectLabels (image : list ascii) (r : option error)
| CallDetectFaces (image : list ascii) (nfaces : nat) (r : option error)
| CallPut (dataset table : string) (rows : list row) (r : option error).

(** The tables of the store, by dataset and table name. *)
Definition Tables : Type := string -> string -> list row.

Record State : Type := { trace : list event; tables : Tables }.

(** ** The monad of the function: world, state, and how the call ends *)

Definition M (A : Type) : Type := World -> State -> State * result A.

Definition ret {A : Type} (a : A) : M A := fun _ st => (st, Done a).

Definition bind {A B : Type} (c : M A) (k : A -> M B) : M B :=
  fun w st =>
    match c w st with
    | (st', Done a) => k a w st'
    | (st', Panic p) => (st', Panic p)
    | (st', Exit s) => (st', Exit s)
    end.

Declare Scope go_scope.
Delimit Scope go_scope with go.
Notation "x <- c ;; k" := (bind c (fun x => k))
  (at level 61, c at next level, right associativity) : go_scope.
Notation "' p <- c ;; k" := (bind c (fun x => match x with p => k end))
  (at level 61, p pattern, c at next level, right associativity) : go_scope.
Notation "c ;;; k" := (bind c (fun _ => k))
  (at level 61, right associativity) : go_scope.

(** A pure computation that may panic, run inside [M]. *)
Definition lift {A : Type} (r : result A) : M A := fun _ st => (st, r).

Definition ask {A : Type} (f : World -> A) : M A := fun w st => (st, Done (f w)).

Definition log (ev : event) : M unit :=
  fun _ st => ({| trace := (trace st ++ [ev])%list; tables := tables st |}, Done tt).

Definition osExit {A : Type} (status : Z) : M A := fun _ st => (st, Exit status).

Definition errOf {A : Type} (r : error + A) : option error :=
  match r with inl e => Some e | inr _ => None end.

(** The tables after [rows] are appended to one of them. *)
Definition addRows (dataset table : string) (rows : list row) (tb : Tables) : Tables :=
  fun d t =>
    if String.eqb d dataset && String.eqb t table
    then (tb d t ++ rows)%list else tb d t.

Definition appendRows (dataset table : string) (rows : list row) : M unit :=
  fun _ st =>
    ({| trace := trace st; tables := addRows dataset table rows (tables st) |}, Done tt).

Open Scope go_scope.

(** *** The collaborators' calls *)

Definition timeNow : M time.Time :=
  t <- ask time_Now ;; log (CallTimeNow t) ;;; ret t.

Definition storageNewClient : M (option error) :=
  r <- ask storage_NewClient ;; log (CallStorageNewClient r) ;;; ret r.

Definition osGetenv (key : string) : M string :=
  v <- ask (fun w => os_Getenv w key) ;; log (CallGetenv key v) ;;; ret v.

(** [log.Fatal]: print, then [os.Exit(1)]. *)
Definition logFatal {A : Type} (err : error) : M A :=
  log (CallLogFatal err) ;;; osExit 1.

Definition bigqueryNewClient (projectID : string) : M (option error) :=
  r <- ask (fun w => bigquery_NewClient w projectID) ;;
  log (CallBigqueryNewClient projectID r) ;;; ret r.

Definition xidNew : M string :=
  id <- ask xid_New ;; log (CallXidNew id) ;;; ret id.

Definition objNewReader (bucket name : string) : M (error + Reader) :=
  r <- ask (fun w => Object_NewReader w bucket name) ;;
  log (CallNewReader bucket name (errOf r)) ;;; ret r.

Definition sessionNewSession : M (option error) :=
  r <- ask session_NewSession ;; log (CallNewSession r) ;;; ret r.

Definition ioutilReadAll (imgReader : Reader) : M (error + list ascii) :=
  log (CallReadAll (contents imgReader)) ;;; ret (contents imgReader).

Definition svcDetectLabels (image : list ascii) : M (error + rekognition.DetectLabelsOutput) :=
  r <- ask (fun w => DetectLabels w image) ;;
  log (CallDetectLabels image (errOf r)) ;;; ret r.

Definition svcDetectFaces (image : list ascii) : M (error + rekognition.DetectFacesOutput) :=
  r <- ask (fun w => DetectFaces w image) ;;
  log (CallDetectFaces image
         (match r with inr out => List.length (rekognition.FaceDetails out) | inl _ => O end)
         (errOf r)) ;;;
  ret r.

(** Modelled from the spec: [Inserter.Put] belongs to the store client
    (cloud.google.com/go/bigquery), whose code is not among the sources.
    Writing an empty collection is a no-op success (section 4.4; the client
    builds no insert request when it is given no rows). Any other write goes
    to the service in one request; the rows are in the table when the
    service accepts them, and the service's error is returned when not. *)
Definition InserterPut (dataset table : string) (rows : list row) : M (option error) :=
  match rows with
  | [] => log (CallPut dataset table rows None) ;;; ret None
  | _ =>
      r <- ask (fun w => Tabledata_InsertAll w dataset table rows) ;;
      log (CallPut dataset table rows r) ;;;
      match r with
      | Some err => ret (Some err)
      | None => appendRows dataset table rows ;;; ret None
      end
  end.

(** ** mustEnv *)

Definition mustEnv (key : string) : M string :=
  env <- osGetenv key ;;
  if String.eqb env "" then
    logFatal (Errorf ("env variable with key=" ++ key ++ " is not found"))
  else ret env.

(** ** detectWaitingCustomersFromImg *)

(** The loop over the labels; [waitingPeopleNum] is the named result. *)
Fixpoint labelsLoop (labels : list (option rekognition.Label.t)) (waitingPeopleNum : Z)
  : result Z :=
  match labels with
  | [] => Done waitingPeopleNum
  | label :: rest =>
      rbind (deref label) (fun l =>
      rbind (deref (rekognition.Label.Confidence l)) (fun confidence =>
      if (confidence <? 0.5)%float then labelsLoop rest waitingPeopleNum
      else
        rbind (deref (rekognition.Label.Name l)) (fun name =>
        if String.eqb name "Person"
        then labelsLoop rest (Z.of_nat (List.length (rekognition.Label.Instances l)))
        else labelsLoop rest waitingPeopleNum)))
  end.

(** The loop over the face details; [customers] grows by one per face. *)
Fixpoint facesLoop (lineObservationID : string)
    (faceDetails : list (option rekognition.FaceDetail.t))
    (customers : list waitingCustomerMeta) : result (list waitingCustomerMeta) :=
  match faceDetails with
  | [] => Done customers
  | faceDetail :: rest =>
      rbind (deref faceDetail) (fun fd =>
      rbind (deref (rekognition.FaceDetail.Gender fd)) (fun g =>
      rbind (deref (rekognition.Gender.Value g)) (fun gender =>
      rbind (deref (rekognition.Gender.Confidence g)) (fun genderConfidence =>
      rbind (deref (rekognition.FaceDetail.AgeRange fd)) (fun a =>
      rbind (deref (rekognition.AgeRange.Low a)) (fun low =>
      rbind (deref (rekognition.AgeRange.High a)) (fun high =>
      rbind (deref (rekognition.FaceDetail.Confidence fd)) (fun confidence =>
      let cus := {| LineObservationID := lineObservationID;
                    Gender := gender;
                    GenderConfidence := genderConfidence;
                    LowestAge := low;
                    HighestAge := high;
                    Confidence := confidence |} in
      facesLoop lineObservationID rest (customers ++ [cus])%list))))))))
  end.

Definition detectWaitingCustomersFromImg (lineObservationID : string) (imgReader : Reader)
  : M (Z * list waitingCustomerMeta * option error) :=
  r <- sessionNewSession ;;
  match r with
  | Some err => ret (0, [], Some (Wrap err "new aws session"))
  | None =>
  r <- ioutilReadAll imgReader ;;
  match r with
  | inl err => ret (0, [], Some (Wrap err "read img bytes from reader"))
  | inr image =>
  r <- svcDetectLabels image ;;
  match r with
  | inl err => ret (0, [], Some (Wrap err "detect labels"))
  | inr detectLabelOutput =>
  waitingPeopleNum <- lift (labelsLoop (rekognition.Labels detectLabelOutput) 0) ;;
  r <- svcDetectFaces image ;;
  match r with
  | inl err => ret (0, [], Some (Wrap err "detect faces"))
  | inr detectFacesOutput =>
  customers <- lift (facesLoop lineObservationID
                       (rekognition.FaceDetails detectFacesOutput) []) ;;
  ret (waitingPeopleNum, customers, None)
  end end end end.

(** ** AnalyzeLineImage *)

Definition AnalyzeLineImage (e : gcsEvent) : M (option error) :=
  now <- timeNow ;;
  r <- storageNewClient ;;
  match r with
  | Some err => ret (Some (Wrap err "init gcs client"))
  | None =>
  projectID <- mustEnv "GCP_PROJECT_ID" ;;
  r <- bigqueryNewClient projectID ;;
  match r with
  | Some err => ret (Some (Wrap err "init bigquery client failed"))
  | None =>
  let objName := ObjectName e in
  lineObservationID <- xidNew ;;
  log (CallGetMeta objName) ;;;
  '(shopID, observedAt, err) <- lift (getMetaFromObjName objName) ;;
  match err with
  | Some err => ret (Some (Wrap err ("get lineObservation meta from " ++ objName)))
  | None =>
  r <- objNewReader (Bucket e) objName ;;
  match r with
  | inl err => ret (Some (Wrap err ("new " ++ objName ++ " reader failed")))
  | inr reader =>
  '(waitingCustomerNum, customers, err) <-
     detectWaitingCustomersFromImg lineObservationID reader ;;
  match err with
  | Some err => ret (Some (Wrap err ("analyze " ++ objName ++ " image failed")))
  | None =>
  let lo := {| ID := lineObservationID;
               ShopID := shopID;
               WaitingPeopleNum := waitingCustomerNum;
               ObservedAt := observedAt;
               CreatedAt := now |} in
  r <- InserterPut fastLaneDataset lineObservationTable [ObservationRow lo] ;;
  match r with
  | Some err => ret (Some (Wrap err "put analyzed lineObservation data"))
  | None =>
  r <- InserterPut fastLaneDataset waitingCustomerMetaTable (map MetaRow customers) ;;
  match r with
  | Some err => ret (Some (Wrap err "load analyzed lineObservation data to bq faile"))
  | None => ret None
  end end end end end end end.

(** One invocation, from an empty log and the tables as they stand. *)
Definition run (w : World) (t0 : Tables) (e : gcsEvent) : State * result (option error) :=
  AnalyzeLineImage e w {| trace := []; tables := t0 |}.

Definition traceOf (w : World) (t0 : Tables) (e : gcsEvent) : list event :=
  trace (fst (run w t0 e)).
Definition tablesOf (w : World) (t0 : Tables) (e : gcsEvent) : Tables :=
  tables (fst (run w t0 e)).
Definition outcome (w : World) (t0 : Tables) (e : gcsEvent) : result (option error) :=
  snd (run w t0 e).

(** ** Vocabulary of the specification *)

(** [s] has the byte [c]. *)
Fixpoint contains (s : string) (c : ascii) : bool :=
  match s with
  | EmptyString => false
  | String a s' => Ascii.eqb a c || contains s' c
  end.

Definition isDigit (c : ascii) : bool := (48 <=? byte_of c) && (byte_of c <=? 57).

(** The number a run of decimal digits writes, after the value [acc]. *)
Fixpoint digitsValue (s : string) (acc : Z) : option Z :=
  match s with
  | EmptyString => Some acc
  | String c s' =>
      if isDigit c then digitsValue s' (acc * 10 + (byte_of c - 48)) else None
  end.

(** A base-10 integer: an optional sign, then one decimal digit or more. *)
Definition decimal (s : string) : option Z :=
  match s with
  | EmptyString => None
  | String c rest =>
      if Ascii.eqb c "+" then
        match rest with EmptyString => None | _ => digitsValue rest 0 end
      else if Ascii.eqb c "-" then
        match rest with EmptyString => None | _ => option_map Z.opp (digitsValue rest 0) end
      else digitsValue s 0
  end.

(** A base-10 integer that a signed 64-bit word holds. *)
Definition int64Decimal (s : string) : option Z :=
  match decimal s with
  | Some z => if (- 2 ^ 63 <=? z) && (z <? 2 ^ 63) then Some z else None
  | None => None
  end.

(** A directory prefix: empty, or ending in the path separator. *)
Definition isDirPrefix (dir : string) : bool :=
  match rev (bytes dir) with
  | [] => true
  | c :: _ => filepath.IsPathSeparator c
  end.

(** The object name without its extension, as the parser cuts it. *)
Definition stem (objName : string) : string :=
  slice_to objName (len objName - len (filepath.Ext objName)).

(** *** Labels *)

Definition labelNamed (name : string) (label : option rekognition.Label.t) : bool :=
  match label with
  | Some l =>
      match rekognition.Label.Name l with
      | Some n => String.eqb n name
      | None => false
      end
  | None => false
  end.

Definition confidenceAtLeast (x : float) (label : option rekognition.Label.t) : bool :=
  match label with
  | Some l =>
      match rekognition.Label.Confidence l with
      | Some c => (x <=? c)%float
      | None => false
      end
  | None => false
  end.

(** A label named "Person" whose confidence is at least 0.5. *)
Definition countedPerson (label : option rekognition.Label.t) : bool :=
  labelNamed "Person" label && confidenceAtLeast 0.5 label.

Definition instanceCount (label : option rekognition.Label.t) : Z :=
  match label with
  | Some l => Z.of_nat (List.length (rekognition.Label.Instances l))
  | None => 0
  end.

(** A label as the service returns it: present, with a name and with a
    confidence that is a number. *)
Definition labelWellFormed (label : option rekognition.Label.t) : bool :=
  match label with
  | Some l =>
      match rekognition.Label.Name l, rekognition.Label.Confidence l with
      | Some _, Some c => negb (is_nan c)
      | _, _ => false
      end
  | None => false
  end.

(** The count after the labels, from the count [acc] before them: each
    counted person label replaces it. *)
Definition tally (acc : Z) (labels : list (option rekognition.Label.t)) : Z :=
  fold_left (fun n label => if countedPerson label then instanceCount label else n)
            labels acc.

Definition personLabel (confidence : float) (instances : list (option rekognition.Instance.t))
  : option rekognition.Label.t :=
  Some {| rekognition.Label.Name := Some "Person";
          rekognition.Label.Confidence := Some confidence;
          rekognition.Label.Instances := instances |}.

(** *** Faces *)

(** A face detail as the service returns it when all attributes are asked
    for: present, with gender, age range and confidence filled in. *)
Definition facePopulated (faceDetail : option rekognition.FaceDetail.t) : bool :=
  match faceDetail with
  | Some fd =>
      match rekognition.FaceDetail.Gender fd, rekognition.FaceDetail.AgeRange fd,
            rekognition.FaceDetail.Confidence fd with
      | Some g, Some a, Some _ =>
          match rekognition.Gender.Value g, rekognition.Gender.Confidence g,
                rekognition.AgeRange.Low a, rekognition.AgeRange.High a with
          | Some _, Some _, Some _, Some _ => true
          | _, _, _, _ => false
          end
      | _, _, _ => false
      end
  | None => false
  end.

(** *** The runs of [AnalyzeLineImage], by the step that ends them *)

Section Runs.

Variables (w : World) (t0 : Tables) (e : gcsEvent).

Definition projectID : string := os_Getenv w "GCP_PROJECT_ID".

Definition observation (shopID : string) (observedAt : time.Time) (n : Z) : lineObservation :=
  {| ID := xid_New w; ShopID := shopID; WaitingPeopleNum := n;
     ObservedAt := observedAt; CreatedAt := time_Now w |}.

Definition metaRows (customers : list waitingCustomerMeta) : list row :=
  map MetaRow customers.

(** How far a run got. *)
Definition clientsOk : Prop :=
  storage_NewClient w = None /\ projectID <> "" /\ bigquery_NewClient w projectID = None.

Definition parsed (shopID : string) (observedAt : time.Time) : Prop :=
  clientsOk /\ getMetaFromObjName (ObjectName e) = Done (shopID, observedAt, None).

Definition opened (shopID : string) (observedAt : time.Time) (reader : Reader) : Prop :=
  parsed shopID observedAt /\ Object_NewReader w (Bucket e) (ObjectName e) = inr reader.

Definition imageRead (shopID : string) (observedAt : time.Time) (image : list ascii) : Prop :=
  exists reader, opened shopID observedAt reader /\ session_NewSession w = None
                 /\ contents reader = inr image.

Definition labelled (shopID : string) (observedAt : time.Time) (image : list ascii)
    (n : Z) : Prop :=
  exists out, imageRead shopID observedAt image /\ DetectLabels w image = inr out
              /\ labelsLoop (rekognition.Labels out) 0 = Done n.

Definition detected (shopID : string) (observedAt : time.Time) (image : list ascii)
    (n : Z) (nfaces : nat) (customers : list waitingCustomerMeta) : Prop :=
  exists out, labelled shopID observedAt image n /\ DetectFaces w image = inr out
              /\ nfaces = List.length (rekognition.FaceDetails out)
              /\ facesLoop (xid_New w) (rekognition.FaceDetails out) [] = Done customers.

(** The calls made up to each step. *)
Definition evGcs : list event := [CallTimeNow (time_Now w); CallStorageNewClient None].
Definition evConfig : list event := (evGcs ++ [CallGetenv "GCP_PROJECT_ID" projectID])%list.
Definition evClients : list event :=
  (evConfig ++ [CallBigqueryNewClient projectID None])%list.
Definition evParse : list event :=
  (evClients ++ [CallXidNew (xid_New w); CallGetMeta (ObjectName e)])%list.
Definition evOpen : list event :=
  (evParse ++ [CallNewReader (Bucket e) (ObjectName e) None])%list.
Definition evSession : list event := (evOpen ++ [CallNewSession None])%list.
Definition evRead (image : list ascii) : list event :=
  (evSession ++ [CallReadAll (inr image)])%list.
Definition evLabels (image : list ascii) : list event :=
  (evRead image ++ [CallDetectLabels image None])%list.
Definition evFaces (image : list ascii) (nfaces : nat) : list event :=
  (evLabels image ++ [CallDetectFaces image nfaces None])%list.

Definition wrapDetect (err : error) (msg : string) : error :=
  Wrap (Wrap err msg) ("analyze " ++ ObjectName e ++ " image failed").

Inductive Run : list event -> Tables -> result (option error) -> Prop :=
| RunGcsClientFails err :
    storage_NewClient w = Some err ->
    Run [CallTimeNow (time_Now w); CallStorageNewClient (Some err)] t0
        (Done (Some (Wrap err "init gcs client")))
| RunConfigMissing :
    storage_NewClient w = None -> projectID = "" ->
    Run (evConfig ++ [CallLogFatal
           (Errorf "env variable with key=GCP_PROJECT_ID is not found")])%list
        t0 (Exit 1)
| RunBigqueryClientFails err :
    storage_NewClient w = None -> projectID <> "" ->
    bigquery_NewClient w projectID = Some err ->
    Run (evConfig ++ [CallBigqueryNewClient projectID (Some err)])%list t0
        (Done (Some (Wrap err "init bigquery client failed")))
| RunParsePanics p :
    clientsOk -> getMetaFromObjName (ObjectName e) = Panic p ->
    Run evParse t0 (Panic p)
| RunParseFails shopID observedAt err :
    clientsOk -> getMetaFromObjName (ObjectName e) = Done (shopID, observedAt, Some err) ->
    Run evParse t0
        (Done (Some (Wrap err ("get lineObservation meta from " ++ ObjectName e))))
| RunReaderFails shopID observedAt err :
    parsed shopID observedAt ->
    Object_NewReader w (Bucket e) (ObjectName e) = inl err ->
    Run (evParse ++ [CallNewReader (Bucket e) (ObjectName e) (Some err)])%list t0
        (Done (Some (Wrap err ("new " ++ ObjectName e ++ " reader failed"))))
| RunSessionFails shopID observedAt reader err :
    opened shopID observedAt reader -> session_NewSession w = Some err ->
    Run (evOpen ++ [CallNewSession (Some err)])%list t0
        (Done (Some (wrapDetect err "new aws session")))
| RunReadFails shopID observedAt reader err :
    opened shopID observedAt reader -> session_NewSession w = None ->
    contents reader = inl err ->
    Run (evSession ++ [CallReadAll (inl err)])%list t0
        (Done (Some (wrapDetect err "read img bytes from reader")))
| RunDetectLabelsFails shopID observedAt image err :
    imageRead shopID observedAt image -> DetectLabels w image = inl err ->
    Run (evRead image ++ [CallDetectLabels image (Some err)])%list t0
        (Done (Some (wrapDetect err "detect labels")))
| RunLabelsPanic shopID observedAt image out p :
    imageRead shopID observedAt image -> DetectLabels w image = inr out ->
    labelsLoop (rekognition.Labels out) 0 = Panic p ->
    Run (evLabels image) t0 (Panic p)
| RunDetectFacesFails shopID observedAt image n err :
    labelled shopID observedAt image n -> DetectFaces w image = inl err ->
    Run (evLabels image ++ [CallDetectFaces image 0 (Some err)])%list t0
        (Done (Some (wrapDetect err "detect faces")))
| RunFacesPanic shopID observedAt image n out p :
    labelled shopID observedAt image n -> DetectFaces w image = inr out ->
    facesLoop (xid_New w) (rekognition.FaceDetails out) [] = Panic p ->
    Run (evFaces image (List.length (rekognition.FaceDetails out))) t0 (Panic p)
| RunPutObservationFails shopID observedAt image n nfaces customers err :
    detected shopID observedAt image n nfaces customers ->
    Tabledata_InsertAll w fastLaneDataset lineObservationTable
      [ObservationRow (observation shopID observedAt n)] = Some err ->
    Run (evFaces image nfaces ++
           [CallPut fastLaneDataset lineObservationTable
              [ObservationRow (observation shopID observedAt n)] (Some err)])%list
        t0
        (Done (Some (Wrap err "put analyzed lineObservation data")))
| RunPutMetaFails shopID observedAt image n nfaces customers err :
    detected shopID observedAt image n nfaces customers ->
    Tabledata_InsertAll w fastLaneDataset lineObservationTable
      [ObservationRow (observation shopID observedAt n)] = None ->
    customers <> [] ->
    Tabledata_InsertAll w fastLaneDataset waitingCustomerMetaTable
      (metaRows customers) = Some err ->
    Run (evFaces image nfaces ++
           [CallPut fastLaneDataset lineObservationTable
              [ObservationRow (observation shopID observedAt n)] None;
            CallPut fastLaneDataset waitingCustomerMetaTable
              (metaRows customers) (Some err)])%list
        (addRows fastLaneDataset lineObservationTable
           [ObservationRow (observation shopID observedAt n)] t0)
        (Done (Some (Wrap err "load analyzed lineObservation data to bq faile")))
| RunDoneNoFaces shopID observedAt image n nfaces :
    detected shopID observedAt image n nfaces [] ->
    Tabledata_InsertAll w fastLaneDataset lineObservationTable
      [ObservationRow (observation shopID observedAt n)] = None ->
    Run (evFaces image nfaces ++
           [CallPut fastLaneDataset lineObservationTable
              [ObservationRow (observation shopID observedAt n)] None;
            CallPut fastLaneDataset waitingCustomerMetaTable [] None])%list
        (addRows fastLaneDataset lineObservationTable
           [ObservationRow (observation shopID observedAt n)] t0)
        (Done None)
| RunDone shopID observedAt image n nfaces customers :
    detected shopID observedAt image n nfaces customers ->
    Tabledata_InsertAll w fastLaneDataset lineObservationTable
      [ObservationRow (observation shopID observedAt n)] = None ->
    customers <> [] ->
    Tabledata_InsertAll w fastLaneDataset waitingCustomerMetaTable
      (metaRows customers) = None ->
    Run (evFaces image nfaces ++
           [CallPut fastLaneDataset lineObservationTable
              [ObservationRow (observation shopID observedAt n)] None;
            CallPut fastLaneDataset waitingCustomerMetaTable
              (metaRows customers) None])%list
        (addRows fastLaneDataset waitingCustomerMetaTable (metaRows customers)
           (addRows fastLaneDataset lineObservationTable
              [ObservationRow (observation shopID observedAt n)] t0))
        (Done None).

End Runs.

(** *** Kinds of calls and the order of the steps *)

Definition isDetection (ev : event) : bool :=
  match ev with
  | CallNewSession _ | CallReadAll _ | CallDetectLabels _ _ | CallDetectFaces _ _ _ => true
  | _ => false
  end.

Definition isStoreWrite (ev : event) : bool :=
  match ev with
  | CallPut _ _ _ _ => true
  | _ => false
  end.

(** The observation a row belongs to. *)
Definition rowObservationID (r : row) : string :=
  match r with
  | ObservationRow lo => ID lo
  | MetaRow c => LineObservationID c
  end.

Inductive stage : Type :=
| StClock
| StObjectSourceClient
| StConfig
| StStoreClient
| StGenerateID
| StParseMeta
| StOpenObject
| StDetectSession
| StReadBytes
| StDetectLabels
| StDetectFaces
| StPersistObservation
| StPersistMeta.

(** The step a call belongs to; [log.Fatal] reports the end of the
    configuration step and is no step of its own. *)
Definition stageOf (ev : event) : option stage :=
  match ev with
  | CallTimeNow _ => Some StClock
  | CallStorageNewClient _ => Some StObjectSourceClient
  | CallGetenv _ _ => Some StConfig
  | CallLogFatal _ => None
  | CallBigqueryNewClient _ _ => Some StStoreClient
  | CallXidNew _ => Some StGenerateID
  | CallGetMeta _ => Some StParseMeta
  | CallNewReader _ _ _ => Some StOpenObject
  | CallNewSession _ => Some StDetectSession
  | CallReadAll _ => Some StReadBytes
  | CallDetectLabels _ _ => Some StDetectLabels
  | CallDetectFaces _ _ _ => Some StDetectFaces
  | CallPut _ table _ _ =>
      if String.eqb table lineObservationTable then Some StPersistObservation
      else Some StPersistMeta
  end.

Fixpoint stagesOf (tr : list event) : list stage :=
  match tr with
  | [] => []
  | ev :: tr' =>
      match stageOf ev with
      | Some s => s :: stagesOf tr'
      | None => stagesOf tr'
      end
  end.

(** The steps of an invocation, in the order of the code. *)
Definition pipeline : list stage :=
  [StClock; StObjectSourceClient; StConfig; StStoreClient; StGenerateID; StParseMeta;
   StOpenObject; StDetectSession; StReadBytes; StDetectLabels; StDetectFaces;
   StPersistObservation; StPersistMeta].

(** The labels under which the failure of a step is returned, innermost
    first; none for the steps that return no error. *)
Definition stageLabels (e : gcsEvent) (s : stage) : list string :=
  match s with
  | StClock | StConfig | StGenerateID => []
  | StObjectSourceClient => ["init gcs client"]
  | StStoreClient => ["init bigquery client failed"]
  | StParseMeta => ["get lineObservation meta from " ++ ObjectName e]
  | StOpenObject => ["new " ++ ObjectName e ++ " reader failed"]
  | StDetectSession => ["new aws session"; "analyze " ++ ObjectName e ++ " image failed"]
  | StReadBytes =>
      ["read img bytes from reader"; "analyze " ++ ObjectName e ++ " image failed"]
  | StDetectLabels => ["detect labels"; "analyze " ++ ObjectName e ++ " image failed"]
  | StDetectFaces => ["detect faces"; "analyze " ++ ObjectName e ++ " image failed"]
  | StPersistObservation => ["put analyzed lineObservation data"]
  | StPersistMeta => ["load analyzed lineObservation data to bq faile"]
  end.

Definition wrapAll (cause : error) (labels : list string) : error :=
  fold_left Wrap labels cause.

(** *** Example worlds *)

Definition emptyTables : Tables := fun _ _ => [].

Definition exampleFace : option rekognition.FaceDetail.t :=
  Some {| rekognition.FaceDetail.Gender :=
            Some {| rekognition.Gender.Value := Some "Female";
                    rekognition.Gender.Confidence := Some 98.2%float |};
          rekognition.FaceDetail.AgeRange :=
            Some {| rekognition.AgeRange.Low := Some 20;
                    rekognition.AgeRange.High := Some 30 |};
          rekognition.FaceDetail.Confidence := Some 99.1%float |}.

Definition exampleEvent : gcsEvent :=
  {| Bucket := "lines"; ObjectName := "shop42_1700000000.jpg"; ContentType := "image/jpeg" |}.

(** Every collaborator answers; the image shows two persons and one face. *)
Definition exampleWorld : World := {|
  time_Now := time.Unix 1700000100 0;
  storage_NewClient := None;
  os_Getenv := fun key => if String.eqb key "GCP_PROJECT_ID" then "fast-lane" else "";
  bigquery_NewClient := fun _ => None;
  xid_New := "9m4e2mr0ui3e8a215n4g";
  Object_NewReader := fun _ _ => inr {| contents := inr (bytes "JFIF") |};
  session_NewSession := None;
  DetectLabels := fun _ =>
    inr {| rekognition.Labels := [personLabel 0.9 [None; None]] |};
  DetectFaces := fun _ => inr {| rekognition.FaceDetails := [exampleFace] |};
  Tabledata_InsertAll := fun _ _ _ => None
|}.

(** [exampleWorld] with some answers replaced. *)
Definition withFaces (faces : list (option rekognition.FaceDetail.t)) (w : World) : World :=
  {| time_Now := time_Now w; storage_NewClient := storage_NewClient w;
     os_Getenv := os_Getenv w; bigquery_NewClient := bigquery_NewClient w;
     xid_New := xid_New w; Object_NewReader := Object_NewReader w;
     session_NewSession := session_NewSession w; DetectLabels := DetectLabels w;
     DetectFaces := fun _ => inr {| rekognition.FaceDetails := faces |};
     Tabledata_InsertAll := Tabledata_InsertAll w |}.

Definition withInsertAll (f : string -> string -> list row -> option error) (w : World)
  : World :=
  {| time_Now := time_Now w; storage_NewClient := storage_NewClient w;
     os_Getenv := os_Getenv w; bigquery_NewClient := bigquery_NewClient w;
     xid_New := xid_New w; Object_NewReader := Object_NewReader w;
     session_NewSession := session_NewSession w; DetectLabels := DetectLabels w;
     DetectFaces := DetectFaces w;
     Tabledata_InsertAll := f |}.

Definition withNewReader (f : string -> string -> error + Reader) (w : World) : World :=
  {| time_Now := time_Now w; storage_NewClient := storage_NewClient w;
     os_Getenv := os_Getenv w; bigquery_NewClient := bigquery_NewClient w;
     xid_New := xid_New w; Object_NewReader := f;
     session_NewSession := session_NewSession w; DetectLabels := DetectLabels w;
     DetectFaces := DetectFaces w;
     Tabledata_InsertAll := Tabledata_InsertAll w |}.

Definition withGetenv (f : string -> string) (w : World) : World :=
  {| time_Now := time_Now w; storage_NewClient := storage_NewClient w;
     os_Getenv := f; bigquery_NewClient := bigquery_NewClient w;
     xid_New := xid_New w; Object_NewReader := Object_NewReader w;
     session_NewSession := session_NewSession w; DetectLabels := DetectLabels w;
     DetectFaces := DetectFaces w;
     Tabledata_InsertAll := Tabledata_InsertAll w |}.

Definition withStorageNewClient (r : option error) (w : World) : World :=
  {| time_Now := time_Now w; storage_NewClient := r;
     os_Getenv := os_Getenv w; bigquery_NewClient := bigquery_NewClient w;
     xid_New := xid_New w; Object_NewReader := Object_NewReader w;
     session_NewSession := session_NewSession w; DetectLabels := DetectLabels w;
     DetectFaces := DetectFaces w;
     Tabledata_InsertAll := Tabledata_InsertAll w |}.

Definition readerFailsWorld : World :=
  withNewReader (fun _ _ => inl (ServiceError "storage: object doesn't exist")) exampleWorld.

Definition storeDown (table : string) : string -> string -> list row -> option error :=
  fun _ t _ => if String.eqb t table then Some (ServiceError "googleapi: Error 503") else None.

Definition badNameEvent : gcsEvent :=
  {| Bucket := "lines"; ObjectName := "shop42_noon.jpg"; ContentType := "image/jpeg" |}.

Definition noConfigWorld : World := withGetenv (fun _ => "") exampleWorld.

Definition noConfigNoStorageWorld : World :=
  withStorageNewClient (Some (ServiceError "dialing: could not find default credentials"))
    noConfigWorld.

(** *** Vocabulary of the further properties *)

(** The record built from one face detail, when every attribute is there. *)
Definition metaOfFace (lineObservationID : string)
    (faceDetail : option rekognition.FaceDetail.t) : option waitingCustomerMeta :=
  match faceDetail with
  | Some fd =>
      match rekognition.FaceDetail.Gender fd, rekognition.FaceDetail.AgeRange fd,
            rekognition.FaceDetail.Confidence fd with
      | Some g, Some a, Some confidence =>
          match rekognition.Gender.Value g, rekognition.Gender.Confidence g,
                rekognition.AgeRange.Low a, rekognition.AgeRange.High a with
          | Some gender, Some genderConfidence, Some low, Some high =>
              Some {| LineObservationID := lineObservationID;
                      Gender := gender;
                      GenderConfidence := genderConfidence;
                      LowestAge := low;
                      HighestAge := high;
                      Confidence := confidence |}
          | _, _, _, _ => None
          end
      | _, _, _ => None
      end
  | None => None
  end.

(** The error a call answered with, if it failed. *)
Definition evError (ev : event) : option error :=
  match ev with
  | CallStorageNewClient r | CallBigqueryNewClient _ r | CallNewReader _ _ r
  | CallNewSession r | CallDetectLabels _ r | CallDetectFaces _ _ r
  | CallPut _ _ _ r => r
  | CallReadAll (inl err) => Some err
  | _ => None
  end.

Definition exampleReader : Reader := {| contents := inr (bytes "JFIF") |}.

(** Face detection is refused; everything else answers. *)
Definition facesDownWorld : World :=
  {| time_Now := time_Now exampleWorld; storage_NewClient := None;
     os_Getenv := os_Getenv exampleWorld; bigquery_NewClient := fun _ => None;
     xid_New := xid_New exampleWorld; Object_NewReader := Object_NewReader exampleWorld;
     session_NewSession := None; DetectLabels := DetectLabels exampleWorld;
     DetectFaces := fun _ => inl (ServiceError "ThrottlingException");
     Tabledata_InsertAll := fun _ _ _ => None |}.

(** * Properties *)

(** ** Strings as byte lists *)

Lemma bytes_app (a b : string) : bytes (a ++ b) = (bytes a ++ bytes b)%list.
Proof. induction a as [|c a IH]; simpl; [reflexivity | now rewrite IH]. Qed.

Lemma str_bytes (s : string) : str (bytes s) = s.
Proof. apply string_of_list_ascii_of_string. Qed.

Lemma len_bytes (s : string) : len s = List.length (bytes s).
Proof. induction s as [|c s IH]; simpl; [reflexivity | now rewrite <- IH]. Qed.

Lemma len_app (a b : string) : len (a ++ b) = (len a + len b)%nat.
Proof. now rewrite !len_bytes, bytes_app, length_app. Qed.

Lemma slice_to_app (a b : string) : slice_to (a ++ b) (len a) = a.
Proof.
  unfold slice_to, len. induction a as [|c a IH]; simpl.
  - now destruct b.
  - now rewrite IH.
Qed.

Lemma contains_existsb (s : string) (c : ascii) :
  contains s c = existsb (fun a => Ascii.eqb a c) (bytes s).
Proof. induction s as [|a s IH]; simpl; [reflexivity | now rewrite IH]. Qed.

Lemma contains_app (a b : string) (c : ascii) :
  contains (a ++ b) c = contains a c || contains b c.
Proof. induction a as [|x a IH]; simpl; [reflexivity | now rewrite IH, orb_assoc]. Qed.

(** ** path/filepath *)

Lemma ext_scan_plain (l rest acc : list ascii) :
  existsb (fun a => Ascii.eqb a ".") l = false ->
  existsb (fun a => Ascii.eqb a "/") l = false ->
  filepath.ext_scan (l ++ rest) acc = filepath.ext_scan rest (rev l ++ acc).
Proof.
  revert acc. induction l as [|c l IH]; intros acc Hdot Hsep; simpl in *.
  - reflexivity.
  - apply orb_false_elim in Hdot as [Hc Hdot].
    apply orb_false_elim in Hsep as [Hc' Hsep].
    unfold filepath.IsPathSeparator. rewrite Hc, Hc'.
    rewrite IH by assumption. now rewrite <- app_assoc.
Qed.

Lemma existsb_rev {A : Type} (p : A -> bool) (l : list A) :
  existsb p (rev l) = existsb p l.
Proof.
  induction l as [|a l IH]; simpl; [reflexivity|].
  rewrite existsb_app, IH. simpl. now rewrite orb_false_r, orb_comm.
Qed.

Lemma Ext_app (pre ext : string) :
  contains ext "." = false -> contains ext "/" = false ->
  filepath.Ext (pre ++ "." ++ ext) = "." ++ ext.
Proof.
  intros Hdot Hsep. rewrite contains_existsb in Hdot, Hsep.
  unfold filepath.Ext. rewrite bytes_app. simpl.
  rewrite rev_app_distr. simpl. rewrite <- app_assoc.
  rewrite ext_scan_plain by now rewrite existsb_rev.
  simpl. rewrite rev_involutive, app_nil_r. now rewrite str_bytes.
Qed.

Lemma stem_app (pre ext : string) :
  contains ext "." = false -> contains ext "/" = false ->
  stem (pre ++ "." ++ ext) = pre.
Proof.
  intros Hdot Hsep. unfold stem. rewrite Ext_app by assumption.
  rewrite len_app. replace (len pre + len ("." ++ ext) - len ("." ++ ext))%nat with (len pre) by lia.
  apply slice_to_app.
Qed.

Lemma takeWhile_app_stop {A : Type} (p : A -> bool) (l rest : list A) :
  forallb p l = true ->
  match rest with [] => True | c :: _ => p c = false end ->
  takeWhile p (l ++ rest) = l.
Proof.
  intros Hl Hrest. induction l as [|a l IH]; simpl in *.
  - destruct rest as [|c rest]; [reflexivity|]. simpl. now rewrite Hrest.
  - apply andb_prop in Hl as [Ha Hl]. rewrite Ha. now rewrite IH.
Qed.

Lemma forallb_rev {A : Type} (p : A -> bool) (l : list A) :
  forallb p (rev l) = forallb p l.
Proof.
  induction l as [|a l IH]; simpl; [reflexivity|].
  rewrite forallb_app, IH. simpl. now rewrite andb_true_r, andb_comm.
Qed.

Lemma forallb_negb_existsb {A : Type} (p : A -> bool) (l : list A) :
  forallb (fun a => negb (p a)) l = negb (existsb p l).
Proof.
  induction l as [|a l IH]; simpl; [reflexivity|].
  now rewrite IH, negb_orb.
Qed.

Lemma Base_in_dir (dir name : string) :
  isDirPrefix dir = true -> name <> "" -> contains name "/" = false ->
  filepath.Base (dir ++ name) = name.
Proof.
  intros Hdir Hne Hsep. rewrite contains_existsb in Hsep.
  unfold filepath.Base.
  assert (Hb : bytes name <> []).
  { intros E. apply Hne. rewrite <- (str_bytes name), E. reflexivity. }
  destruct (String.eqb_spec (dir ++ name) "") as [E|_].
  { exfalso. apply (f_equal bytes) in E. rewrite bytes_app in E. simpl in E.
    apply app_eq_nil in E. tauto. }
  rewrite bytes_app, rev_app_distr.
  assert (Hrev : forallb (fun c => negb (filepath.IsPathSeparator c)) (rev (bytes name)) = true).
  { rewrite forallb_rev, forallb_negb_existsb. unfold filepath.IsPathSeparator.
    now rewrite Hsep. }
  destruct (rev (bytes name)) as [|c r] eqn:Er.
  { exfalso. apply Hb. rewrite <- (rev_involutive (bytes name)), Er. reflexivity. }
  simpl in Hrev. apply andb_prop in Hrev as [Hc Hr].
  simpl. apply negb_true_iff in Hc. rewrite Hc. simpl. rewrite Hc. simpl.
  rewrite takeWhile_app_stop; [| assumption |].
  - change (c :: r) with ([c] ++ r)%list in Er. 
    assert (E : (rev r ++ [c])%list = bytes name).
    { rewrite <- (rev_involutive (bytes name)), Er. simpl. reflexivity. }
    rewrite E. destruct (bytes name) eqn:En; [congruence|].
    rewrite <- En. apply str_bytes.
  - unfold isDirPrefix in Hdir. destruct (rev (bytes dir)); [exact I|].
    now rewrite Hdir.
Qed.

(** ** strings.Split *)

Lemma Split_plain (a : string) (sep : ascii) :
  contains a sep = false -> strings.Split a sep = [a].
Proof.
  induction a as [|c a IH]; simpl; intros H; [reflexivity|].
  apply orb_false_elim in H as [Hc Ha]. rewrite Hc, IH by assumption. reflexivity.
Qed.

Lemma Split_app (a b : string) (sep : ascii) :
  contains a sep = false ->
  strings.Split (a ++ String sep b) sep = a :: strings.Split b sep.
Proof.
  induction a as [|c a IH]; simpl; intros H.
  - now rewrite Ascii.eqb_refl.
  - apply orb_false_elim in H as [Hc Ha]. rewrite Hc, IH by assumption. reflexivity.
Qed.

(** ** strconv.ParseInt *)

Lemma byte_of_range (c : ascii) : 0 <= byte_of c < 256.
Proof.
  unfold byte_of. pose proof (N_ascii_bounded c). lia.
Qed.

Lemma digitsValue_ge (s : string) :
  forall n v, 0 <= n -> digitsValue s n = Some v -> n <= v.
Proof.
  induction s as [|c s IH]; simpl; intros n v Hn H.
  - injection H as <-. lia.
  - destruct (isDigit c) eqn:Hd; [|discriminate].
    unfold isDigit in Hd. apply andb_prop in Hd as [H1 H2].
    apply Z.leb_le in H1, H2.
    apply IH in H; lia.
Qed.

Lemma wrap64_small (z : Z) : 0 <= z < 2 ^ 64 -> strconv.wrap64 z = z.
Proof. intros H. unfold strconv.wrap64. now apply Z.mod_small. Qed.

Lemma wrap64_over (z : Z) : 2 ^ 64 <= z < 2 * 2 ^ 64 -> strconv.wrap64 z = z - 2 ^ 64.
Proof.
  intros H. unfold strconv.wrap64.
  symmetry. apply (Z.mod_unique _ _ 1); lia.
Qed.

Lemma parseUint_loop_digit (c : ascii) (s : string) (n : Z) :
  isDigit c = true -> 0 <= n <= strconv.maxUint64 ->
  strconv.parseUint_loop (String c s) n =
    if n * 10 + (byte_of c - 48) <=? strconv.maxUint64
    then strconv.parseUint_loop s (n * 10 + (byte_of c - 48))
    else (strconv.maxVal, Some ErrRange).
Proof.
  intros Hd Hn. cbn [strconv.parseUint_loop].
  unfold isDigit in Hd. rewrite Hd.
  apply andb_prop in Hd as [H1 H2]. apply Z.leb_le in H1, H2.
  set (b := byte_of c) in *.
  unfold strconv.cutoff.
  unfold strconv.maxUint64, strconv.base, strconv.maxVal in *.
  change (2 ^ 64 - 1) with 18446744073709551615 in *.
  change (18446744073709551615 / 10 + 1) with 1844674407370955162.
  destruct (Z.leb_spec 10 (b - 48)) as [Hbad|_]; [lia|].
  destruct (Z.leb_spec 1844674407370955162 n) as [Hcut|Hcut].
  - destruct (Z.leb_spec (n * 10 + (b - 48)) 18446744073709551615); [lia | reflexivity].
  - rewrite (wrap64_small (n * 10)) by (change (2 ^ 64) with 18446744073709551616; lia).
    destruct (Z.leb_spec (n * 10 + (b - 48)) 18446744073709551615) as [Hfit|Hover].
    + rewrite wrap64_small by (change (2 ^ 64) with 18446744073709551616; lia).
      destruct (Z.ltb_spec (n * 10 + (b - 48)) (n * 10)) as [?|_]; [lia|].
      destruct (Z.ltb_spec 18446744073709551615 (n * 10 + (b - 48))) as [?|_]; [lia|].
      reflexivity.
    + rewrite wrap64_over by (change (2 ^ 64) with 18446744073709551616; lia).
      change (2 ^ 64) with 18446744073709551616.
      destruct (Z.ltb_spec (n * 10 + (b - 48) - 18446744073709551616) (n * 10)) as [_|?]; [|lia].
      reflexivity.
Qed.

Lemma parseUint_loop_other (c : ascii) (s : string) (n : Z) :
  isDigit c = false ->
  strconv.parseUint_loop (String c s) n = (0, Some ErrSyntax).
Proof.
  intros Hd. cbn [strconv.parseUint_loop].
  unfold isDigit in Hd. rewrite Hd.
  destruct ((97 <=? strconv.lower (byte_of c)) && (strconv.lower (byte_of c) <=? 122)) eqn:Hl;
    [|reflexivity].
  apply andb_prop in Hl as [H1 H2]. apply Z.leb_le in H1, H2.
  unfold strconv.base.
  destruct (Z.leb_spec 10 (strconv.lower (byte_of c) - 97 + 10)); [reflexivity | lia].
Qed.

Lemma parseUint_loop_spec (s : string) :
  forall n, 0 <= n <= strconv.maxUint64 ->
  match digitsValue s n with
  | Some v =>
      if v <=? strconv.maxUint64 then strconv.parseUint_loop s n = (v, None)
      else strconv.parseUint_loop s n = (strconv.maxVal, Some ErrRange)
  | None =>
      strconv.parseUint_loop s n = (0, Some ErrSyntax) \/
      strconv.parseUint_loop s n = (strconv.maxVal, Some ErrRange)
  end.
Proof.
  induction s as [|c s IH]; intros n Hn.
  - simpl. destruct (Z.leb_spec n strconv.maxUint64); [reflexivity | lia].
  - cbn [digitsValue]. destruct (isDigit c) eqn:Hd.
    + rewrite parseUint_loop_digit by assumption.
      assert (Hc : 48 <= byte_of c <= 57).
      { unfold isDigit in Hd. apply andb_prop in Hd as [H1 H2].
        apply Z.leb_le in H1, H2. lia. }
      destruct (Z.leb_spec (n * 10 + (byte_of c - 48)) strconv.maxUint64) as [Hfit|Hover].
      * apply IH. lia.
      * destruct (digitsValue s (n * 10 + (byte_of c - 48))) as [v|] eqn:Ev; [|now right].
        apply digitsValue_ge in Ev; [|lia].
        destruct (Z.leb_spec v strconv.maxUint64); [lia | reflexivity].
    + left. now apply parseUint_loop_other.
Qed.

Lemma digitsValue_nonneg (s : string) (v : Z) : digitsValue s 0 = Some v -> 0 <= v.
Proof. apply digitsValue_ge. lia. Qed.

(** [ParseUint] on a non-empty string. *)
Lemma ParseUint_spec (s : string) :
  s <> "" ->
  match digitsValue s 0 with
  | Some v =>
      if v <=? strconv.maxUint64 then strconv.ParseUint s = (v, None)
      else strconv.ParseUint s = (strconv.maxVal, Some ErrRange)
  | None =>
      strconv.ParseUint s = (0, Some ErrSyntax) \/
      strconv.ParseUint s = (strconv.maxVal, Some ErrRange)
  end.
Proof.
  intros Hne. destruct s as [|c s]; [congruence|].
  unfold strconv.ParseUint. apply parseUint_loop_spec.
  unfold strconv.maxUint64. lia.
Qed.

(** What [ParseInt] makes of the magnitude [ParseUint] returns. *)
Lemma ParseInt_unfold (c : ascii) (rest : string) :
  strconv.ParseInt (String c rest) =
    let neg := Ascii.eqb c "-" in
    let s := if Ascii.eqb c "+" then rest else if neg then rest else String c rest in
    match strconv.ParseUint s with
    | (_, Some ErrSyntax) => (0, Some (NumError "ParseInt" (String c rest) ErrSyntax))
    | (un, _) =>
        if negb neg && (2 ^ 63 <=? un) then
          (2 ^ 63 - 1, Some (NumError "ParseInt" (String c rest) ErrRange))
        else if neg && (2 ^ 63 <? un) then
          (- 2 ^ 63, Some (NumError "ParseInt" (String c rest) ErrRange))
        else (if neg then - un else un, None)
    end.
Proof. reflexivity. Qed.

(** The magnitude and sign that [ParseInt] reads, in the words of [decimal]. *)
Lemma decimal_split (c : ascii) (rest : string) :
  let neg := Ascii.eqb c "-" in
  let s := if Ascii.eqb c "+" then rest else if neg then rest else String c rest in
  decimal (String c rest) =
    match s with
    | EmptyString => None
    | _ => option_map (fun v => if neg then - v else v) (digitsValue s 0)
    end.
Proof.
  unfold decimal.
  destruct (Ascii.eqb_spec c "+") as [->|Hp].
  - simpl. destruct rest; [reflexivity|]. now destruct (digitsValue _ _).
  - destruct (Ascii.eqb_spec c "-") as [->|Hm].
    + destruct rest; [reflexivity|]. cbv zeta. now destruct (digitsValue _ _).
    + cbv zeta. now destruct (digitsValue _ _).
Qed.

Theorem ParseInt_int64Decimal (s : string) :
  match int64Decimal s with
  | Some z => strconv.ParseInt s = (z, None)
  | None => exists v k, strconv.ParseInt s = (v, Some (NumError "ParseInt" s k))
  end.
Proof.
  destruct s as [|c rest].
  { simpl. now exists 0, ErrSyntax. }
  unfold int64Decimal. rewrite decimal_split, ParseInt_unfold. cbv zeta.
  set (neg := Ascii.eqb c "-").
  set (s := if Ascii.eqb c "+" then rest else if neg then rest else String c rest).
  destruct (string_dec s "") as [E|Hne].
  { rewrite E. simpl. now exists 0, ErrSyntax. }
  pose proof (ParseUint_spec s Hne) as HU.
  replace (match s with EmptyString => None | String _ _ =>
             option_map (fun v => if neg then - v else v) (digitsValue s 0) end)
    with (option_map (fun v => if neg then - v else v) (digitsValue s 0))
    by (destruct s; [congruence | reflexivity]).
  destruct (digitsValue s 0) as [v|] eqn:Ev.
  - apply digitsValue_nonneg in Ev. simpl option_map. cbv beta.
    unfold strconv.maxUint64, strconv.maxVal in HU.
    change (2 ^ 64 - 1) with 18446744073709551615 in HU.
    change (2 ^ 63) with 9223372036854775808.
    destruct (Z.leb_spec v 18446744073709551615) as [Hfit|Hover]; rewrite HU.
    + destruct neg; simpl negb; simpl andb.
      * destruct (Z.ltb_spec 9223372036854775808 v).
        -- destruct (Z.leb_spec (-9223372036854775808) (- v)); [lia|].
           simpl. now exists (-9223372036854775808), ErrRange.
        -- destruct (Z.leb_spec (-9223372036854775808) (- v)); [|lia].
           destruct (Z.ltb_spec (- v) 9223372036854775808); [|lia].
           reflexivity.
      * destruct (Z.leb_spec 9223372036854775808 v).
        -- destruct (Z.ltb_spec v 9223372036854775808); [lia|].
           rewrite andb_false_r. now exists (9223372036854775808 - 1), ErrRange.
        -- destruct (Z.leb_spec (-9223372036854775808) v); [|lia].
           destruct (Z.ltb_spec v 9223372036854775808); [|lia].
           reflexivity.
    + destruct neg; simpl negb; simpl andb.
      * destruct (Z.leb_spec (-9223372036854775808) (- v)); [lia|].
        simpl. now exists (-9223372036854775808), ErrRange.
      * destruct (Z.ltb_spec v 9223372036854775808); [lia|].
        rewrite andb_false_r. now exists (9223372036854775808 - 1), ErrRange.
  - simpl option_map. destruct HU as [HU|HU]; rewrite HU.
    + now exists 0, ErrSyntax.
    + unfold strconv.maxVal. change (2 ^ 64 - 1) with 18446744073709551615.
      change (2 ^ 63) with 9223372036854775808.
      destruct neg; simpl.
      * now exists (-9223372036854775808), ErrRange.
      * now exists 9223372036854775807, ErrRange.
Qed.

(** ** time *)

Lemma unixSec_Unix (z : Z) :
  - 2 ^ 63 <= z < 2 ^ 63 -> time.unixSec (time.toLocal (time.Unix z 0)) = z.
Proof.
  intros H. unfold time.unixSec, time.toLocal, time.Unix. simpl.
  unfold time.internalToUnix, time.wrapInt64.
  change time.unixToInternal with 62135596800.
  change (2 ^ 63) with 9223372036854775808 in *.
  change (2 ^ 64) with 18446744073709551616.
  Z.div_mod_to_equations. lia.
Qed.

(** ** The object-name parser *)

Lemma sapp_assoc (a b c : string) : (a ++ b) ++ c = a ++ b ++ c.
Proof. induction a as [|x a IH]; simpl; [reflexivity | now rewrite IH]. Qed.

Lemma digitsValue_chars (s : string) (c : ascii) :
  forall n v, digitsValue s n = Some v -> isDigit c = false -> contains s c = false.
Proof.
  induction s as [|a s IH]; simpl; intros n v H Hc; [reflexivity|].
  destruct (isDigit a) eqn:Ha; [|discriminate].
  rewrite (IH _ _ H Hc), orb_false_r.
  destruct (Ascii.eqb_spec a c); [congruence | reflexivity].
Qed.

Lemma decimal_chars (s : string) (z : Z) (c : ascii) :
  decimal s = Some z -> isDigit c = false -> c <> "+"%char -> c <> "-"%char ->
  contains s c = false.
Proof.
  intros H Hc Hp Hm. destruct s as [|a rest]; [reflexivity|].
  unfold decimal in H.
  destruct (Ascii.eqb a "+") eqn:Ep.
  - apply Ascii.eqb_eq in Ep; subst a. cbn [contains].
    replace (Ascii.eqb "+" c) with false by (symmetry; apply Ascii.eqb_neq; congruence).
    cbn [orb]. destruct rest as [|b rest']; [discriminate|].
    eapply digitsValue_chars; eauto.
  - destruct (Ascii.eqb a "-") eqn:Em.
    + apply Ascii.eqb_eq in Em; subst a. cbn [contains].
      replace (Ascii.eqb "-" c) with false by (symmetry; apply Ascii.eqb_neq; congruence).
      cbn [orb]. destruct rest as [|b rest']; [discriminate|].
      destruct (digitsValue (String b rest') 0) eqn:E; [|discriminate].
      eapply digitsValue_chars; eauto.
    + eapply digitsValue_chars; eauto.
Qed.

Lemma int64Decimal_decimal (s : string) (z : Z) :
  int64Decimal s = Some z -> decimal s = Some z /\ - 2 ^ 63 <= z < 2 ^ 63.
Proof.
  unfold int64Decimal. destruct (decimal s) as [v|]; [|discriminate].
  destruct (Z.leb_spec (- 2 ^ 63) v), (Z.ltb_spec v (2 ^ 63)); simpl; try discriminate.
  intros [= ->]. split; [reflexivity | lia].
Qed.

(** The parser in terms of the tokens of the stem's base name. *)
Lemma getMetaFromObjName_tokens (objName s0 s1 : string) (more : list string) :
  strings.Split (filepath.Base (stem objName)) "_" = s0 :: s1 :: more ->
  getMetaFromObjName objName =
    match strconv.ParseInt s1 with
    | (_, Some err) => Done (s0, time.zero, Some err)
    | (unixTime, None) => Done (s0, time.toLocal (time.Unix unixTime 0), None)
    end.
Proof.
  intros H. unfold getMetaFromObjName. fold (stem objName). rewrite H. reflexivity.
Qed.

Lemma getMetaFromObjName_one_token (objName s0 : string) :
  strings.Split (filepath.Base (stem objName)) "_" = [s0] ->
  getMetaFromObjName objName = Panic (IndexOutOfRange 1 1).
Proof.
  intros H. unfold getMetaFromObjName. fold (stem objName). rewrite H. reflexivity.
Qed.

(** C1 (as amended). For every object name [dir ++ shop ++ "_" ++ epoch ++ "." ++ ext]
    in which [dir] is empty or ends in the path separator, [shop] holds
    neither an underscore nor a path separator, [epoch] is a base-10 integer
    of the signed 64-bit range and [ext] holds neither a dot nor a path
    separator, [getMetaFromObjName] returns [shop] verbatim, the local time
    of [epoch] Unix seconds, and no error. *)
Theorem getMetaFromObjName_valid_name (dir shop epoch ext : string) (z : Z) :
  isDirPrefix dir = true ->
  contains shop "_" = false -> contains shop "/" = false ->
  int64Decimal epoch = Some z ->
  contains ext "." = false -> contains ext "/" = false ->
  let observedAt := time.toLocal (time.Unix z 0) in
  getMetaFromObjName (dir ++ shop ++ "_" ++ epoch ++ "." ++ ext)
    = Done (shop, observedAt, None)
  /\ time.unixSec observedAt = z
  /\ time.loc observedAt = time.Local.
Proof.
  intros Hdir Hshop_ Hshop Hepoch Hext Hext' observedAt.
  pose proof (ParseInt_int64Decimal epoch) as HP. rewrite Hepoch in HP.
  apply int64Decimal_decimal in Hepoch as [Hdec Hrange].
  split; [|split; [now apply unixSec_Unix | reflexivity]].
  assert (Hstem : stem (dir ++ shop ++ "_" ++ epoch ++ "." ++ ext)
                  = dir ++ shop ++ "_" ++ epoch).
  { replace (dir ++ shop ++ "_" ++ epoch ++ "." ++ ext)
      with ((dir ++ shop ++ "_" ++ epoch) ++ "." ++ ext)
      by now rewrite !sapp_assoc.
    now apply stem_app. }
  assert (Hbase : filepath.Base (dir ++ shop ++ "_" ++ epoch) = shop ++ "_" ++ epoch).
  { apply Base_in_dir; [assumption | |].
    - destruct shop; discriminate.
    - rewrite !contains_app, Hshop. simpl.
      apply (decimal_chars _ _ "/"%char Hdec); [reflexivity | discriminate | discriminate]. }
  rewrite (getMetaFromObjName_tokens _ shop epoch []).
  - now rewrite HP.
  - rewrite Hstem, Hbase. change ("_" ++ epoch) with (String "_" epoch).
    rewrite Split_app by assumption. f_equal.
    apply Split_plain.
    apply (decimal_chars _ _ "_"%char Hdec); [reflexivity | discriminate | discriminate].
Qed.

Lemma getMetaFromObjName_valid_name_witness :
  getMetaFromObjName "shop42_1700000000.jpg"
    = Done ("shop42", time.toLocal (time.Unix 1700000000 0), None)
  /\ time.unixSec (time.toLocal (time.Unix 1700000000 0)) = 1700000000
  /\ time.loc (time.toLocal (time.Unix 1700000000 0)) = time.Local.
Proof.
  apply (getMetaFromObjName_valid_name "" "shop42" "1700000000" "jpg" 1700000000);
    reflexivity.
Defined.

(** C1, as stated, fails: a base-10 epoch that a signed 64-bit word does not
    hold, and an extension with a dot in it, both end in an error. *)
Lemma getMetaFromObjName_wide_epoch_or_dotted_ext :
  decimal "9223372036854775808" = Some 9223372036854775808
  /\ getMetaFromObjName "s_9223372036854775808.jpg"
     = Done ("s", time.zero, Some (NumError "ParseInt" "9223372036854775808" ErrRange))
  /\ getMetaFromObjName "s_1.tar.gz"
     = Done ("s", time.zero, Some (NumError "ParseInt" "1.tar" ErrSyntax)).
Proof. repeat split; reflexivity. Qed.

(** C4 (as amended). For every object name whose base name, directory and
    extension stripped, has two underscore-separated tokens or more, the
    parser returns a [strconv] error (with the first token and the zero
    time) when the second token is not a base-10 integer of the signed
    64-bit range, and succeeds with the first token as shop id when it is,
    whatever tokens follow the second. *)
Theorem getMetaFromObjName_second_token (objName s0 s1 : string) (more : list string) :
  strings.Split (filepath.Base (stem objName)) "_" = s0 :: s1 :: more ->
  (int64Decimal s1 = None ->
     exists k, getMetaFromObjName objName
               = Done (s0, time.zero, Some (NumError "ParseInt" s1 k)))
  /\ (forall z, int64Decimal s1 = Some z ->
     getMetaFromObjName objName = Done (s0, time.toLocal (time.Unix z 0), None)).
Proof.
  intros H. rewrite (getMetaFromObjName_tokens _ _ _ _ H).
  pose proof (ParseInt_int64Decimal s1) as HP.
  split.
  - intros E. rewrite E in HP. destruct HP as (v & k & ->). now exists k.
  - intros z E. rewrite E in HP. now rewrite HP.
Qed.

Lemma getMetaFromObjName_second_token_witness :
  (exists k, getMetaFromObjName "shop_x7.jpg"
             = Done ("shop", time.zero, Some (NumError "ParseInt" "x7" k)))
  /\ getMetaFromObjName "a_1_2.jpg" = Done ("a", time.toLocal (time.Unix 1 0), None).
Proof.
  split.
  - exact (proj1 (getMetaFromObjName_second_token "shop_x7.jpg" "shop" "x7" [] eq_refl)
             eq_refl).
  - exact (proj2 (getMetaFromObjName_second_token "a_1_2.jpg" "a" "1" ["2"] eq_refl)
             1 eq_refl).
Defined.

(** C4, as stated, fails: a name with a third token parses when the second
    is a number, and a name with no underscore ends in a run-time panic
    (index out of range), which is no returned error. *)
Lemma getMetaFromObjName_extra_or_missing_token :
  getMetaFromObjName "a_1_2.jpg" = Done ("a", time.toLocal (time.Unix 1 0), None)
  /\ getMetaFromObjName "abc.jpg" = Panic (IndexOutOfRange 1 1).
Proof. split; reflexivity. Qed.

(** ** Detection: the label loop *)

Lemma SFcompare_antisym (x y : spec_float) :
  SFcompare y x = option_map CompOpp (SFcompare x y).
Proof.
  destruct x as [s1|s1| |s1 m1 e1], y as [s2|s2| |s2 m2 e2];
    try reflexivity; try (now destruct s1); try (now destruct s2);
    try (now destruct s1, s2).
  destruct s1, s2; try reflexivity; cbn [SFcompare option_map]; f_equal;
    rewrite (Z.compare_antisym e1 e2);
    destruct (e1 ?= e2); cbn [CompOpp]; try reflexivity.
  - f_equal. now rewrite (Pos.compare_cont_antisym m1 m2 Eq).
  - now rewrite (Pos.compare_cont_antisym m1 m2 Eq).
Qed.

Lemma SFltb_negb_SFleb (x y : spec_float) :
  SFcompare x y <> None -> SFltb x y = negb (SFleb y x).
Proof.
  intros H. unfold SFltb, SFleb. rewrite (SFcompare_antisym x y).
  destruct (SFcompare x y) as [[| |]|]; try reflexivity. congruence.
Qed.

Lemma Prim2SF_half : Prim2SF 0.5 = S754_finite false 4503599627370496 (-53).
Proof. vm_compute. reflexivity. Qed.

Lemma ltb_half (c : float) :
  is_nan c = false -> (c <? 0.5)%float = negb (0.5 <=? c)%float.
Proof.
  intros Hnan. rewrite FloatAxioms.ltb_spec, FloatAxioms.leb_spec.
  apply SFltb_negb_SFleb.
  unfold is_nan in Hnan. rewrite FloatAxioms.eqb_spec in Hnan.
  rewrite Prim2SF_half.
  destruct (Prim2SF c) as [s|s| |s m e]; try discriminate.
Qed.

(** One turn of the loop on a well-formed label. *)
Lemma labelsLoop_step (label : option rekognition.Label.t)
    (rest : list (option rekognition.Label.t)) (n : Z) :
  labelWellFormed label = true ->
  labelsLoop (label :: rest) n
    = labelsLoop rest (if countedPerson label then instanceCount label else n).
Proof.
  intros Hwf. destruct label as [l|]; [|discriminate].
  unfold labelWellFormed in Hwf. unfold countedPerson, labelNamed, confidenceAtLeast.
  cbn [labelsLoop deref rbind instanceCount].
  destruct (rekognition.Label.Name l) as [name|]; [|discriminate].
  destruct (rekognition.Label.Confidence l) as [c|]; [|discriminate].
  apply negb_true_iff in Hwf. cbn [deref rbind].
  rewrite (ltb_half c Hwf).
  destruct (0.5 <=? c)%float; cbn [negb].
  - destruct (String.eqb name "Person"); reflexivity.
  - now rewrite andb_false_r.
Qed.

Lemma labelsLoop_tally (labels : list (option rekognition.Label.t)) :
  forall n, forallb labelWellFormed labels = true ->
  labelsLoop labels n = Done (tally n labels).
Proof.
  induction labels as [|label rest IH]; intros n Hwf; [reflexivity|].
  cbn [forallb] in Hwf. apply andb_prop in Hwf as [Hl Hrest].
  rewrite labelsLoop_step by assumption. now apply IH.
Qed.

Lemma tally_app (n : Z) (a b : list (option rekognition.Label.t)) :
  tally n (a ++ b) = tally (tally n a) b.
Proof. unfold tally. apply fold_left_app. Qed.

Lemma tally_none (labels : list (option rekognition.Label.t)) :
  forall n, existsb countedPerson labels = false -> tally n labels = n.
Proof.
  induction labels as [|label rest IH]; intros n H; [reflexivity|].
  cbn [existsb] in H. apply orb_false_elim in H as [Hl Hrest].
  unfold tally. cbn [fold_left]. rewrite Hl. now apply IH.
Qed.

Lemma tally_last (pre post : list (option rekognition.Label.t))
    (label : option rekognition.Label.t) (n : Z) :
  countedPerson label = true -> existsb countedPerson post = false ->
  tally n (pre ++ label :: post) = instanceCount label.
Proof.
  intros Hl Hpost. rewrite tally_app. unfold tally at 1. cbn [fold_left].
  rewrite Hl. now apply tally_none.
Qed.

Lemma existsb_last_split {A : Type} (p : A -> bool) (l : list A) :
  existsb p l = true ->
  exists pre a post, l = (pre ++ a :: post)%list /\ p a = true /\ existsb p post = false.
Proof.
  induction l as [|a l IH]; [discriminate|]. cbn [existsb]. intros H.
  destruct (existsb p l) eqn:El.
  - destruct (IH eq_refl) as (pre & b & post & -> & Hb & Hpost).
    now exists (a :: pre), b, post.
  - rewrite orb_false_r in H. now exists [], a, l.
Qed.

Lemma countedPerson_named (label : option rekognition.Label.t) :
  countedPerson label = true -> labelNamed "Person" label = true.
Proof. unfold countedPerson. intros H. now apply andb_prop in H. Qed.

Lemma existsb_impl {A : Type} (p q : A -> bool) (l : list A) :
  (forall a, p a = true -> q a = true) -> existsb q l = false -> existsb p l = false.
Proof.
  intros Hpq. induction l as [|a l IH]; [reflexivity|]. cbn [existsb].
  intros H. apply orb_false_elim in H as [Ha Hl]. rewrite (IH Hl), orb_false_r.
  destruct (p a) eqn:E; [|reflexivity]. rewrite (Hpq a E) in Ha. discriminate.
Qed.

(** C2. For every label-detection result (labels as the service returns
    them: present, named, with a numeric confidence) the loop returns a
    count [n]: 0 when no label is a "Person" label of confidence at least
    0.5, and otherwise the instance count of such a label. In particular,
    where the only label named "Person" has 3 instances and confidence 0.5
    the count is 3, where it has confidence 0.49 the count is 0, and with no
    label named "Person" the count is 0. *)
Theorem labelsLoop_person_threshold (labels : list (option rekognition.Label.t)) :
  forallb labelWellFormed labels = true ->
  exists n, labelsLoop labels 0 = Done n
    /\ (existsb countedPerson labels = false -> n = 0)
    /\ (existsb countedPerson labels = true ->
        exists label, In label labels /\ countedPerson label = true
                      /\ n = instanceCount label)
    /\ (forall pre post c instances,
        labels = (pre ++ personLabel c instances :: post)%list ->
        existsb (labelNamed "Person") (pre ++ post) = false ->
        (c = 0.5%float -> List.length instances = 3%nat -> n = 3)
        /\ (c = 0.49%float -> n = 0))
    /\ (existsb (labelNamed "Person") labels = false -> n = 0).
Proof.
  intros Hwf. exists (tally 0 labels).
  split; [now apply labelsLoop_tally|].
  split; [apply tally_none|].
  split.
  { intros H. apply existsb_last_split in H as (pre & a & post & -> & Ha & Hpost).
    exists a. split; [apply in_elt|]. split; [assumption|].
    now apply tally_last. }
  split.
  - intros pre post c instances -> Hothers.
    rewrite existsb_app in Hothers. apply orb_false_elim in Hothers as [Hpre Hpost].
    pose proof (existsb_impl _ _ _ countedPerson_named Hpre) as Hpre'.
    pose proof (existsb_impl _ _ _ countedPerson_named Hpost) as Hpost'.
    split.
    + intros -> Hlen. rewrite tally_last; [|reflexivity|assumption].
      cbn [instanceCount personLabel rekognition.Label.Instances]. now rewrite Hlen.
    + intros ->. apply tally_none. rewrite existsb_app. cbn [existsb].
      rewrite Hpre', Hpost'. reflexivity.
  - intros H. apply tally_none. exact (existsb_impl _ _ _ countedPerson_named H).
Qed.

Lemma labelsLoop_person_threshold_witness :
  exists n, labelsLoop [personLabel 0.5 [None; None; None]] 0 = Done n /\ n = 3.
Proof.
  destruct (labelsLoop_person_threshold [personLabel 0.5 [None; None; None]] eq_refl)
    as (n & Hrun & _ & _ & Hone & _).
  exists n. split; [exact Hrun|].
  exact (proj1 (Hone [] [] 0.5%float [None; None; None] eq_refl eq_refl) eq_refl eq_refl).
Defined.

(** C10. When several labels named "Person" have confidence at least 0.5,
    the count is the instance count of the last of them in the list: a
    counted label replaces the count of every counted label before it. *)
Theorem labelsLoop_last_person_wins
    (pre post : list (option rekognition.Label.t)) (label : option rekognition.Label.t) :
  forallb labelWellFormed (pre ++ label :: post) = true ->
  countedPerson label = true ->
  existsb countedPerson post = false ->
  labelsLoop (pre ++ label :: post) 0 = Done (instanceCount label).
Proof.
  intros Hwf Hl Hpost. rewrite labelsLoop_tally by assumption.
  f_equal. now apply tally_last.
Qed.

Lemma labelsLoop_last_person_wins_witness :
  labelsLoop [personLabel 0.9 [None; None]; personLabel 0.75 [None; None; None; None];
              personLabel 0.25 [None]] 0 = Done 4.
Proof.
  exact (labelsLoop_last_person_wins [personLabel 0.9 [None; None]]
           [personLabel 0.25 [None]] (personLabel 0.75 [None; None; None; None])
           eq_refl eq_refl eq_refl).
Defined.

(** ** Detection: the face loop *)

Lemma facesLoop_inv (id : string) (faces : list (option rekognition.FaceDetail.t)) :
  forall customers r, facesLoop id faces customers = Done r ->
  exists more, r = (customers ++ more)%list
    /\ List.length more = List.length faces
    /\ Forall (fun c => LineObservationID c = id) more.
Proof.
  induction faces as [|fd rest IH]; intros customers r H.
  - injection H as <-. exists []. now rewrite app_nil_r.
  - cbn [facesLoop] in H.
    destruct fd as [fd|]; [|discriminate]. cbn [deref rbind] in H.
    destruct (rekognition.FaceDetail.Gender fd) as [g|]; [|discriminate].
    cbn [deref rbind] in H.
    destruct (rekognition.Gender.Value g) as [gender|]; [|discriminate].
    destruct (rekognition.Gender.Confidence g) as [gc|]; [|discriminate].
    cbn [deref rbind] in H.
    destruct (rekognition.FaceDetail.AgeRange fd) as [a|]; [|discriminate].
    cbn [deref rbind] in H.
    destruct (rekognition.AgeRange.Low a) as [low|]; [|discriminate].
    destruct (rekognition.AgeRange.High a) as [high|]; [|discriminate].
    cbn [deref rbind] in H.
    destruct (rekognition.FaceDetail.Confidence fd) as [c|]; [|discriminate].
    cbn [deref rbind] in H.
    apply IH in H as (more & -> & Hlen & Hall).
    eexists (_ :: more). rewrite <- app_assoc. split; [reflexivity|].
    split; [cbn; now rewrite Hlen|]. constructor; [reflexivity | assumption].
Qed.

Lemma facesLoop_total (id : string) (faces : list (option rekognition.FaceDetail.t)) :
  forall customers, forallb facePopulated faces = true ->
  exists r, facesLoop id faces customers = Done r.
Proof.
  induction faces as [|fd rest IH]; intros customers H.
  - now exists customers.
  - cbn [forallb] in H. apply andb_prop in H as [Hfd Hrest].
    cbn [facesLoop]. unfold facePopulated in Hfd.
    destruct fd as [fd|]; [|discriminate]. cbn [deref rbind].
    destruct (rekognition.FaceDetail.Gender fd) as [g|]; [|discriminate].
    destruct (rekognition.FaceDetail.AgeRange fd) as [a|]; [|discriminate].
    destruct (rekognition.FaceDetail.Confidence fd) as [c|]; [|discriminate].
    cbn [deref rbind].
    destruct (rekognition.Gender.Value g) as [gender|]; [|discriminate].
    destruct (rekognition.Gender.Confidence g) as [gc|]; [|discriminate].
    destruct (rekognition.AgeRange.Low a) as [low|]; [|discriminate].
    destruct (rekognition.AgeRange.High a) as [high|]; [|discriminate].
    cbn [deref rbind]. now apply IH.
Qed.

Lemma facesLoop_no_exit (id : string) (faces : list (option rekognition.FaceDetail.t)) :
  forall customers s, facesLoop id faces customers <> Exit s.
Proof.
  induction faces as [|fd rest IH]; intros customers s; [discriminate|].
  cbn [facesLoop].
  destruct fd as [fd|]; [|discriminate]. cbn [deref rbind].
  destruct (rekognition.FaceDetail.Gender fd) as [g|]; [|discriminate].
  cbn [deref rbind].
  destruct (rekognition.Gender.Value g) as [gender|]; [|discriminate].
  destruct (rekognition.Gender.Confidence g) as [gc|]; [|discriminate].
  cbn [deref rbind].
  destruct (rekognition.FaceDetail.AgeRange fd) as [a|]; [|discriminate].
  cbn [deref rbind].
  destruct (rekognition.AgeRange.Low a) as [low|]; [|discriminate].
  destruct (rekognition.AgeRange.High a) as [high|]; [|discriminate].
  cbn [deref rbind].
  destruct (rekognition.FaceDetail.Confidence fd) as [c|]; [|discriminate].
  cbn [deref rbind]. apply IH.
Qed.

Lemma labelsLoop_no_exit (labels : list (option rekognition.Label.t)) :
  forall n s, labelsLoop labels n <> Exit s.
Proof.
  induction labels as [|label rest IH]; intros n s; [discriminate|].
  cbn [labelsLoop].
  destruct label as [l|]; [|discriminate]. cbn [deref rbind].
  destruct (rekognition.Label.Confidence l) as [c|]; [|discriminate].
  cbn [deref rbind].
  destruct (c <? 0.5)%float; [apply IH|].
  destruct (rekognition.Label.Name l) as [name|]; [|discriminate].
  cbn [deref rbind]. destruct (String.eqb name "Person"); apply IH.
Qed.

Lemma getMetaFromObjName_no_exit (objName : string) (s : Z) :
  getMetaFromObjName objName <> Exit s.
Proof.
  unfold getMetaFromObjName.
  destruct (index _ 0) as [s0|p|x] eqn:E0; cbn [rbind]; try discriminate.
  - destruct (index _ 1) as [s1|p|x] eqn:E1; cbn [rbind]; try discriminate.
    + destruct (strconv.ParseInt s1) as [v [err|]]; discriminate.
    + unfold index in E1. destruct (nth_error _ 1); discriminate.
  - unfold index in E0. destruct (nth_error _ 0); discriminate.
Qed.

(** ** The runs of AnalyzeLineImage *)

Ltac run_unfold H :=
  cbv [AnalyzeLineImage detectWaitingCustomersFromImg mustEnv InserterPut
       timeNow storageNewClient osGetenv logFatal bigqueryNewClient xidNew
       objNewReader sessionNewSession ioutilReadAll svcDetectLabels svcDetectFaces
       appendRows bind ret lift ask log osExit errOf trace tables app] in H.

Ltac run_case H :=
  match type of H with
  | context [match ?x with _ => _ end] =>
      lazymatch x with
      | context [match _ with _ => _ end] => fail
      | _ => let E := fresh "E" in destruct x eqn:E; run_unfold H
      end
  end.

Ltac run_prem :=
  unfold detected, labelled, imageRead, opened, parsed, clientsOk, projectID in *;
  repeat first [eassumption | reflexivity | split | eexists].

Ltac run_leaf H :=
  injection H as <- <-; cbn [trace tables];
  solve [econstructor; run_prem].

Ltac run_absurd :=
  exfalso;
  solve [ eapply getMetaFromObjName_no_exit; eassumption
        | eapply labelsLoop_no_exit; eassumption
        | eapply facesLoop_no_exit; eassumption ].

Lemma run_Run_aux (w : World) (t0 : Tables) (e : gcsEvent) (st : State)
    (r : result (option error)) :
  run w t0 e = (st, r) -> Run w t0 e (trace st) (tables st) r.
Proof.
  unfold run. intros H. run_unfold H.
  run_case H; [run_leaf H|].
  run_case H; [apply String.eqb_eq in E0; run_leaf H|].
  apply String.eqb_neq in E0.
  run_case H; [run_leaf H|].
  run_case H; [|run_leaf H|run_absurd].
  repeat (run_case H; try run_leaf H; try run_absurd).
  all: match goal with
       | E : map MetaRow ?c = [] |- _ =>
           apply map_eq_nil in E; subst c; run_leaf H
       | E : map MetaRow ?c = _ :: _ |- _ =>
           assert (c <> []) by (intros ->; discriminate);
           rewrite <- E in *; run_leaf H
       end.
Qed.

(** Every invocation is one of the runs of [Run]. *)
Theorem run_Run (w : World) (t0 : Tables) (e : gcsEvent) :
  Run w t0 e (traceOf w t0 e) (tablesOf w t0 e) (outcome w t0 e).
Proof.
  unfold traceOf, tablesOf, outcome.
  destruct (run w t0 e) as [st r] eqn:E. now apply run_Run_aux.
Qed.

Ltac run_cases w t0 e :=
  let R := fresh "R" in
  pose proof (run_Run w t0 e) as R;
  let tr := fresh "tr" in let tb := fresh "tb" in let out := fresh "out" in
  set (tr := traceOf w t0 e) in *;
  set (tb := tablesOf w t0 e) in *;
  set (out := outcome w t0 e) in *;
  clearbody tr tb out;
  destruct R.

Ltac trace_unfold H :=
  unfold evFaces, evLabels, evRead, evSession, evOpen, evParse, evClients, evConfig,
    evGcs in H;
  cbn [app In] in H.

Ltac trace_in H :=
  trace_unfold H;
  repeat (destruct H as [H|H]; [try discriminate H|]);
  try contradiction.

(** C7. If opening the object's read stream fails, the invocation returns
    that error, wrapped; no detection call and no store write is made, and
    the tables are as they were. *)
Theorem reader_failure_stops_invocation (w : World) (t0 : Tables) (e : gcsEvent)
    (bucket name : string) (err : error) :
  In (CallNewReader bucket name (Some err)) (traceOf w t0 e) ->
  outcome w t0 e = Done (Some (Wrap err ("new " ++ ObjectName e ++ " reader failed")))
  /\ (forall ev, In ev (traceOf w t0 e) -> isDetection ev = false /\ isStoreWrite ev = false)
  /\ tablesOf w t0 e = t0.
Proof.
  intros H. run_cases w t0 e; trace_in H.
  injection H as -> -> ->.
  split; [reflexivity|]. split; [|reflexivity].
  intros ev Hev. trace_in Hev; subst ev; split; reflexivity.
Qed.

Lemma reader_failure_stops_invocation_witness :
  outcome readerFailsWorld emptyTables exampleEvent
    = Done (Some (Wrap (ServiceError "storage: object doesn't exist")
                       ("new " ++ ObjectName exampleEvent ++ " reader failed")))
  /\ (forall ev, In ev (traceOf readerFailsWorld emptyTables exampleEvent) ->
      isDetection ev = false /\ isStoreWrite ev = false)
  /\ tablesOf readerFailsWorld emptyTables exampleEvent = emptyTables.
Proof.
  apply (reader_failure_stops_invocation readerFailsWorld emptyTables exampleEvent
           "lines" "shop42_1700000000.jpg").
  vm_compute. do 6 right. left. reflexivity.
Defined.

Ltac names_unfold :=
  unfold lineObservationTable, waitingCustomerMetaTable, fastLaneDataset in *.

(** C5. The two writes are made one after the other, the observation first.
    If the observation write fails, no meta write is attempted, the
    invocation returns the store's error, wrapped, and the tables are as they
    were. If the meta write fails, the observation write came just before it
    and succeeded, the invocation returns the store's error, wrapped, and
    the observation row stays in its table: nothing deletes it. *)
Theorem store_writes_sequential (w : World) (t0 : Tables) (e : gcsEvent) :
  (forall rows err,
     In (CallPut fastLaneDataset lineObservationTable rows (Some err)) (traceOf w t0 e) ->
     outcome w t0 e = Done (Some (Wrap err "put analyzed lineObservation data"))
     /\ (forall rows' r,
           ~ In (CallPut fastLaneDataset waitingCustomerMetaTable rows' r) (traceOf w t0 e))
     /\ tablesOf w t0 e = t0)
  /\ (forall rows r,
     In (CallPut fastLaneDataset waitingCustomerMetaTable rows r) (traceOf w t0 e) ->
     exists pre lo,
       traceOf w t0 e
         = (pre ++ [CallPut fastLaneDataset lineObservationTable [ObservationRow lo] None;
                    CallPut fastLaneDataset waitingCustomerMetaTable rows r])%list
       /\ (forall err, r = Some err ->
             outcome w t0 e
               = Done (Some (Wrap err "load analyzed lineObservation data to bq faile"))
             /\ tablesOf w t0 e
                = addRows fastLaneDataset lineObservationTable [ObservationRow lo] t0)).
Proof.
  split.
  - intros rows err H. run_cases w t0 e; names_unfold; trace_in H.
    injection H as -> ->.
    split; [reflexivity|]. split; [|reflexivity].
    intros rows' r H. trace_in H.
  - intros rows r H. run_cases w t0 e; names_unfold; trace_in H;
      injection H as Hrows Hr; subst rows r;
      exists (evFaces w e image nfaces), (observation w shopID observedAt n);
      (split; [reflexivity|]); intros err0 [=]; subst; split; reflexivity.
Qed.

Lemma store_writes_sequential_witness :
  (outcome (withInsertAll (storeDown lineObservationTable) exampleWorld) emptyTables exampleEvent
     = Done (Some (Wrap (ServiceError "googleapi: Error 503")
                        "put analyzed lineObservation data"))
   /\ (forall rows' r,
         ~ In (CallPut fastLaneDataset waitingCustomerMetaTable rows' r)
              (traceOf (withInsertAll (storeDown lineObservationTable) exampleWorld)
                 emptyTables exampleEvent))
   /\ tablesOf (withInsertAll (storeDown lineObservationTable) exampleWorld)
        emptyTables exampleEvent = emptyTables)
  /\ outcome (withInsertAll (storeDown waitingCustomerMetaTable) exampleWorld)
       emptyTables exampleEvent
     = Done (Some (Wrap (ServiceError "googleapi: Error 503")
                        "load analyzed lineObservation data to bq faile")).
Proof.
  split.
  - eapply (proj1 (store_writes_sequential
                     (withInsertAll (storeDown lineObservationTable) exampleWorld)
                     emptyTables exampleEvent)).
    vm_compute. do 11 right. left. reflexivity.
  - reflexivity.
Defined.

Lemma detected_no_faces (w : World) (e : gcsEvent) (shopID : string)
    (observedAt : time.Time) (image : list ascii) (n : Z)
    (customers : list waitingCustomerMeta) :
  detected w e shopID observedAt image n 0 customers -> customers = [].
Proof.
  intros (out & _ & _ & Hlen & Hloop).
  destruct (rekognition.FaceDetails out); [|discriminate].
  now injection Hloop as <-.
Qed.

Lemma detected_customers (w : World) (e : gcsEvent) (shopID : string)
    (observedAt : time.Time) (image : list ascii) (n : Z) (nfaces : nat)
    (customers : list waitingCustomerMeta) :
  detected w e shopID observedAt image n nfaces customers ->
  List.length customers = nfaces
  /\ Forall (fun c => LineObservationID c = xid_New w) customers.
Proof.
  intros (out & _ & _ & -> & Hloop).
  apply facesLoop_inv in Hloop as (more & -> & Hlen & Hall). now split.
Qed.

(** C6. When face detection returns no face, the meta write is a write of
    zero rows that returns no error, whatever the store would answer; once
    the observation write has succeeded the invocation returns nil, and the
    meta table holds what it held before. *)
Theorem empty_meta_write_is_noop (w : World) (t0 : Tables) (e : gcsEvent)
    (image : list ascii) :
  In (CallDetectFaces image 0 None) (traceOf w t0 e) ->
  (forall rows r,
     In (CallPut fastLaneDataset waitingCustomerMetaTable rows r) (traceOf w t0 e) ->
     rows = [] /\ r = None)
  /\ (forall rows,
     In (CallPut fastLaneDataset lineObservationTable rows None) (traceOf w t0 e) ->
     outcome w t0 e = Done None
     /\ In (CallPut fastLaneDataset waitingCustomerMetaTable [] None) (traceOf w t0 e)
     /\ tablesOf w t0 e fastLaneDataset waitingCustomerMetaTable
        = t0 fastLaneDataset waitingCustomerMetaTable).
Proof.
  intros H. run_cases w t0 e; names_unfold; trace_in H;
    try (injection H as -> ->);
    try match goal with
        | D : detected _ _ _ _ _ _ 0 ?c, N : ?c <> [] |- _ =>
            exfalso; apply N; exact (detected_no_faces _ _ _ _ _ _ _ D)
        end.
  - split; [intros rows r Hin; trace_in Hin | intros rows Hin; trace_in Hin].
  - split; [intros rows r Hin; trace_in Hin | intros rows Hin; trace_in Hin].
  - split.
    + intros rows r Hin. trace_in Hin. injection Hin as <- <-. now split.
    + intros rows Hin. trace_in Hin.
      split; [reflexivity|]. split; [|reflexivity].
      unfold evFaces, evLabels, evRead, evSession, evOpen, evParse, evClients, evConfig, evGcs.
      cbn [app In]. do 12 right. left. reflexivity.
Qed.

Lemma empty_meta_write_is_noop_witness :
  outcome (withInsertAll (storeDown waitingCustomerMetaTable) (withFaces [] exampleWorld))
    emptyTables exampleEvent = Done None
  /\ tablesOf (withInsertAll (storeDown waitingCustomerMetaTable) (withFaces [] exampleWorld))
       emptyTables exampleEvent fastLaneDataset waitingCustomerMetaTable = [].
Proof.
  pose (w := withInsertAll (storeDown waitingCustomerMetaTable) (withFaces [] exampleWorld)).
  assert (Hfaces : In (CallDetectFaces (bytes "JFIF") 0 None)
                      (traceOf w emptyTables exampleEvent)).
  { vm_compute. do 10 right. left. reflexivity. }
  destruct (empty_meta_write_is_noop w emptyTables exampleEvent (bytes "JFIF") Hfaces)
    as [_ Hwrite].
  destruct (Hwrite [ObservationRow (observation w "shop42"
                                      (time.toLocal (time.Unix 1700000000 0)) 2)])
    as (Hout & _ & Htab).
  { vm_compute. do 11 right. left. reflexivity. }
  split; [exact Hout | exact Htab].
Defined.

(** C3. For a face-detection result of N faces (N = 0 included), each with
    its attributes filled in, the loop builds exactly N meta records, each
    carrying the given observation id. In an invocation, every row handed to
    the store, of either table, carries the id generated in that invocation,
    and the meta write has as many rows as face detection returned faces. *)
Theorem meta_records_reference_observation (w : World) (t0 : Tables) (e : gcsEvent) :
  (forall id faces, forallb facePopulated faces = true ->
     exists customers, facesLoop id faces [] = Done customers
       /\ List.length customers = List.length faces
       /\ Forall (fun c => LineObservationID c = id) customers)
  /\ (forall id, In (CallXidNew id) (traceOf w t0 e) -> id = xid_New w)
  /\ (forall dataset table rows r,
        In (CallPut dataset table rows r) (traceOf w t0 e) ->
        Forall (fun x => rowObservationID x = xid_New w) rows)
  /\ (forall image nfaces r rows r',
        In (CallDetectFaces image nfaces r) (traceOf w t0 e) ->
        In (CallPut fastLaneDataset waitingCustomerMetaTable rows r') (traceOf w t0 e) ->
        List.length rows = nfaces).
Proof.
  split; [|split; [|split]].
  - intros id faces Hpop.
    destruct (facesLoop_total id faces [] Hpop) as [customers Hrun].
    exists customers. split; [assumption|].
    apply facesLoop_inv in Hrun as (more & -> & Hlen & Hall). now split.
  - intros id H. run_cases w t0 e; trace_in H; now injection H as <-.
  - intros dataset table rows r H.
    run_cases w t0 e; names_unfold; trace_in H;
      injection H as <- <- <- <-;
      try (repeat constructor; fail);
      match goal with
      | D : detected _ _ _ _ _ _ _ _ |- _ =>
          apply detected_customers in D as [_ Hall]; unfold metaRows;
          apply Forall_forall; intros x Hx;
          apply in_map_iff in Hx as (c & <- & Hc);
          rewrite Forall_forall in Hall; exact (Hall c Hc)
      end.
  - intros image nfaces r rows r' Hf Hp.
    run_cases w t0 e; names_unfold; trace_in Hp; trace_in Hf;
      injection Hp as <- <-; injection Hf as <- <- <-;
      try reflexivity;
      match goal with
      | D : detected _ _ _ _ _ _ _ _ |- _ =>
          apply detected_customers in D as [Hlen _]; unfold metaRows;
          rewrite ?length_map; exact Hlen
      end.
Qed.

Lemma meta_records_reference_observation_witness :
  exists customers,
    facesLoop "9m4e2mr0ui3e8a215n4g" [exampleFace; exampleFace] [] = Done customers
    /\ List.length customers = 2%nat
    /\ Forall (fun c => LineObservationID c = "9m4e2mr0ui3e8a215n4g") customers.
Proof.
  exact (proj1 (meta_records_reference_observation exampleWorld emptyTables exampleEvent)
           "9m4e2mr0ui3e8a215n4g" [exampleFace; exampleFace] eq_refl).
Defined.


(** ** The order of the steps *)

Ltac prefix_of_pipeline :=
  first [ exists 0%nat; reflexivity | exists 1%nat; reflexivity | exists 2%nat; reflexivity
        | exists 3%nat; reflexivity | exists 4%nat; reflexivity | exists 5%nat; reflexivity
        | exists 6%nat; reflexivity | exists 7%nat; reflexivity | exists 8%nat; reflexivity
        | exists 9%nat; reflexivity | exists 10%nat; reflexivity | exists 11%nat; reflexivity
        | exists 12%nat; reflexivity | exists 13%nat; reflexivity ].

Lemma stageLabels_identify (e : gcsEvent) (s1 s2 : stage) :
  stageLabels e s1 <> [] -> stageLabels e s1 = stageLabels e s2 -> s1 = s2.
Proof.
  intros Hne H.
  destruct s1, s2; cbn [stageLabels] in *; try reflexivity; try congruence;
    try (exfalso; cbn in H; congruence).
Qed.

(** C8 (as amended). The calls of every invocation are an initial part of
    this sequence, in this order: clock, object-source client,
    configuration, store client, ObservationID generation, metadata parsing,
    opening of the object's read stream, detection session, reading of the
    object bytes, label detection, face detection with the assembly of the
    meta records, observation write, meta write; a run that returns nil
    makes all of them. An error the invocation returns is the cause wrapped
    in the labels of the last step made, and the labels tell the steps
    apart. *)
Theorem steps_in_pipeline_order (w : World) (t0 : Tables) (e : gcsEvent) :
  (exists k, stagesOf (traceOf w t0 e) = firstn k pipeline)
  /\ (outcome w t0 e = Done None -> stagesOf (traceOf w t0 e) = pipeline)
  /\ (forall err, outcome w t0 e = Done (Some err) ->
        exists cause,
          stageLabels e (last (stagesOf (traceOf w t0 e)) StClock) <> []
          /\ err = wrapAll cause
                     (stageLabels e (last (stagesOf (traceOf w t0 e)) StClock)))
  /\ (forall s1 s2, stageLabels e s1 <> [] -> stageLabels e s1 = stageLabels e s2 -> s1 = s2).
Proof.
  split; [|split; [|split]].
  - run_cases w t0 e; prefix_of_pipeline.
  - intros H. run_cases w t0 e; try discriminate H; reflexivity.
  - intros err0 H. run_cases w t0 e; try discriminate H;
      injection H as <-; eexists; (split; [|reflexivity]); discriminate.
  - apply stageLabels_identify.
Qed.

(** C8, as stated, fails: the identifier is generated before the metadata
    are parsed, and the metadata are parsed before the object is opened and
    read. With a malformed name and an unreadable object the parse failure is
    what the invocation returns, the identifier is already generated, and no
    read was attempted. *)
Lemma id_and_parse_come_before_read :
  stagesOf (traceOf exampleWorld emptyTables exampleEvent)
    = [StClock; StObjectSourceClient; StConfig; StStoreClient; StGenerateID; StParseMeta;
       StOpenObject; StDetectSession; StReadBytes; StDetectLabels; StDetectFaces;
       StPersistObservation; StPersistMeta]
  /\ outcome readerFailsWorld emptyTables badNameEvent
     = Done (Some (Wrap (NumError "ParseInt" "noon" ErrSyntax)
                        "get lineObservation meta from shop42_noon.jpg"))
  /\ traceOf readerFailsWorld emptyTables badNameEvent
     = [CallTimeNow (time.Unix 1700000100 0); CallStorageNewClient None;
        CallGetenv "GCP_PROJECT_ID" "fast-lane"; CallBigqueryNewClient "fast-lane" None;
        CallXidNew "9m4e2mr0ui3e8a215n4g"; CallGetMeta "shop42_noon.jpg"].
Proof. repeat split; reflexivity. Qed.

(** ** Missing configuration *)

(** C9 (as amended). The absence of the project identifier is found inside
    the invocation, by [mustEnv], after the clock was read and the
    object-source client was made: the process then exits with status 1, the
    entry point returns nothing and no table is touched. When the
    object-source client cannot be made, the invocation returns that error
    and the configuration is never read. *)
Theorem missing_config_is_fatal_in_invocation (w : World) (t0 : Tables) (e : gcsEvent) :
  os_Getenv w "GCP_PROJECT_ID" = "" ->
  (storage_NewClient w = None ->
     outcome w t0 e = Exit 1
     /\ traceOf w t0 e
        = [CallTimeNow (time_Now w); CallStorageNewClient None;
           CallGetenv "GCP_PROJECT_ID" "";
           CallLogFatal (Errorf "env variable with key=GCP_PROJECT_ID is not found")]
     /\ tablesOf w t0 e = t0)
  /\ (forall err, storage_NewClient w = Some err ->
     outcome w t0 e = Done (Some (Wrap err "init gcs client"))
     /\ (forall key value, ~ In (CallGetenv key value) (traceOf w t0 e))).
Proof.
  intros Henv.
  split.
  - intros Hgcs. run_cases w t0 e;
      try match goal with
          | H : storage_NewClient w = Some _ |- _ => rewrite Hgcs in H; discriminate H
          end;
      try (exfalso; unfold detected, labelled, imageRead, opened, parsed, clientsOk, projectID in *;
           repeat match goal with
                  | H : exists _, _ |- _ => destruct H
                  | H : _ /\ _ |- _ => destruct H
                  end; congruence).
    unfold evConfig, evGcs, projectID. rewrite Henv. repeat split; reflexivity.
  - intros err Hgcs. run_cases w t0 e;
      try match goal with
          | H : storage_NewClient w = None |- _ => rewrite Hgcs in H; discriminate H
          end;
      try (exfalso; unfold detected, labelled, imageRead, opened, parsed, clientsOk, projectID in *;
           repeat match goal with
                  | H : exists _, _ |- _ => destruct H
                  | H : _ /\ _ |- _ => destruct H
                  end; congruence).
    match goal with
    | H : storage_NewClient w = Some ?x |- _ =>
        assert (x = err) as -> by congruence
    end.
    split; [reflexivity|]. intros key value Hin. trace_in Hin.
Qed.

Lemma missing_config_is_fatal_in_invocation_witness :
  outcome noConfigWorld emptyTables exampleEvent = Exit 1
  /\ traceOf noConfigWorld emptyTables exampleEvent
     = [CallTimeNow (time_Now noConfigWorld); CallStorageNewClient None;
        CallGetenv "GCP_PROJECT_ID" "";
        CallLogFatal (Errorf "env variable with key=GCP_PROJECT_ID is not found")]
  /\ tablesOf noConfigWorld emptyTables exampleEvent = emptyTables.
Proof.
  exact (proj1 (missing_config_is_fatal_in_invocation noConfigWorld emptyTables exampleEvent
                  eq_refl) eq_refl).
Defined.

(** C9, as stated, fails: the absence is not found at process start. An
    invocation is already under way when it is found (two calls are made
    before the environment is read), and an invocation whose object-source
    client cannot be made returns an ordinary error without finding it. *)
Lemma missing_config_found_late_or_never :
  traceOf noConfigWorld emptyTables exampleEvent
    = [CallTimeNow (time.Unix 1700000100 0); CallStorageNewClient None;
       CallGetenv "GCP_PROJECT_ID" "";
       CallLogFatal (Errorf "env variable with key=GCP_PROJECT_ID is not found")]
  /\ outcome noConfigNoStorageWorld emptyTables exampleEvent
     = Done (Some (Wrap (ServiceError "dialing: could not find default credentials")
                        "init gcs client"))
  /\ traceOf noConfigNoStorageWorld emptyTables exampleEvent
     = [CallTimeNow (time.Unix 1700000100 0);
        CallStorageNewClient
          (Some (ServiceError "dialing: could not find default credentials"))].
Proof. repeat split; reflexivity. Qed.

(** ** The example of the specification, end to end *)

Example end_to_end_example :
  outcome exampleWorld emptyTables exampleEvent = Done None
  /\ tablesOf exampleWorld emptyTables exampleEvent fastLaneDataset lineObservationTable
     = [ObservationRow
          {| ID := "9m4e2mr0ui3e8a215n4g"; ShopID := "shop42"; WaitingPeopleNum := 2;
             ObservedAt := time.toLocal (time.Unix 1700000000 0);
             CreatedAt := time.Unix 1700000100 0 |}]
  /\ tablesOf exampleWorld emptyTables exampleEvent fastLaneDataset waitingCustomerMetaTable
     = [MetaRow
          {| LineObservationID := "9m4e2mr0ui3e8a215n4g"; Gender := "Female";
             GenderConfidence := 98.2%float; LowestAge := 20; HighestAge := 30;
             Confidence := 99.1%float |}].
Proof. repeat split; reflexivity. Qed.

(** * Further properties of the functions *)

(** ** getMetaFromObjName: tokens, panics and the shape of the result *)

Lemma Split_nonempty (s : string) (sep : ascii) : strings.Split s sep <> [].
Proof.
  destruct s as [|c s]; cbn [strings.Split]; [discriminate|].
  destruct (Ascii.eqb c sep); [discriminate|].
  destruct (strings.Split s sep); discriminate.
Qed.

Lemma Split_two (s : string) (sep : ascii) :
  contains s sep = true -> exists a b more, strings.Split s sep = a :: b :: more.
Proof.
  induction s as [|c s IH]; cbn [contains strings.Split]; [discriminate|].
  intros H. destruct (Ascii.eqb c sep).
  - destruct (strings.Split s sep) as [|b more] eqn:E.
    + now apply Split_nonempty in E.
    + now exists "", b, more.
  - cbn [orb] in H. destruct (IH H) as (a & b & more & ->).
    now exists (String c a), b, more.
Qed.

Lemma Split_tokens_plain (s : string) (sep : ascii) (x : string) :
  In x (strings.Split s sep) -> contains x sep = false.
Proof.
  revert x. induction s as [|c s IH]; cbn [strings.Split]; intros x H.
  - destruct H as [<-|[]]. reflexivity.
  - destruct (Ascii.eqb c sep) eqn:Ec.
    + destruct H as [<-|H]; [reflexivity | now apply IH].
    + destruct (strings.Split s sep) as [|h t].
      * destruct H as [<-|[]]. cbn [contains]. now rewrite Ec.
      * destruct H as [<-|H].
        -- cbn [contains]. rewrite Ec. apply IH. now left.
        -- apply IH. now right.
Qed.

Lemma Split_tokens_bytes (s : string) (sep c : ascii) (x : string) :
  In x (strings.Split s sep) -> contains x c = true -> contains s c = true.
Proof.
  revert x. induction s as [|a s IH]; cbn [strings.Split]; intros x H Hx.
  - destruct H as [<-|[]]. discriminate.
  - cbn [contains]. destruct (Ascii.eqb a sep) eqn:Ea.
    + destruct H as [<-|H]; [discriminate|].
      rewrite (IH x H Hx). apply orb_true_r.
    + destruct (strings.Split s sep) as [|h t].
      * destruct H as [<-|[]]. cbn [contains] in Hx.
        rewrite orb_false_r in Hx. now rewrite Hx.
      * destruct H as [<-|H].
        -- cbn [contains] in Hx. apply orb_prop in Hx as [Hx|Hx].
           ++ now rewrite Hx.
           ++ rewrite (IH h (or_introl eq_refl) Hx). apply orb_true_r.
        -- rewrite (IH x (or_intror H) Hx). apply orb_true_r.
Qed.

Lemma existsb_takeWhile {A : Type} (p q : A -> bool) (l : list A) :
  existsb p (takeWhile q l) = true -> existsb p l = true.
Proof.
  induction l as [|a l IH]; cbn [takeWhile existsb]; [discriminate|].
  destruct (q a); cbn [existsb]; [|discriminate].
  intros H. apply orb_prop in H as [H|H]; [now rewrite H|].
  rewrite (IH H). apply orb_true_r.
Qed.

Lemma existsb_dropWhile {A : Type} (p q : A -> bool) (l : list A) :
  existsb p (dropWhile q l) = true -> existsb p l = true.
Proof.
  induction l as [|a l IH]; cbn [dropWhile]; [discriminate|].
  destruct (q a); [|trivial].
  intros H. cbn [existsb]. rewrite (IH H). apply orb_true_r.
Qed.

Lemma takeWhile_forallb {A : Type} (q : A -> bool) (l : list A) :
  forallb q (takeWhile q l) = true.
Proof.
  induction l as [|a l IH]; cbn [takeWhile]; [reflexivity|].
  destruct (q a) eqn:E; [|reflexivity]. cbn [forallb]. now rewrite E.
Qed.

(** The base name is one of the two fall-backs, or an element of the path
    with no separator in it. *)
Lemma Base_cases (path : string) :
  filepath.Base path = "." \/ filepath.Base path = "/"
  \/ (contains (filepath.Base path) "/" = false
      /\ forall c, contains (filepath.Base path) c = true -> contains path c = true).
Proof.
  unfold filepath.Base. destruct (String.eqb path ""); [now left|].
  set (r := dropWhile filepath.IsPathSeparator (rev (bytes path))).
  set (q := fun c : ascii => negb (filepath.IsPathSeparator c)).
  destruct (rev (takeWhile q r)) as [|a l] eqn:E; [right; now left|].
  right; right. rewrite <- E. split.
  - rewrite contains_existsb. unfold str. rewrite list_ascii_of_string_of_list_ascii.
    rewrite existsb_rev.
    pose proof (takeWhile_forallb q r) as Hq. unfold q in Hq.
    rewrite forallb_negb_existsb in Hq. apply negb_true_iff in Hq. exact Hq.
  - intros c. rewrite !contains_existsb. unfold str.
    rewrite list_ascii_of_string_of_list_ascii, existsb_rev. intros H.
    apply existsb_takeWhile in H. unfold r in H. apply existsb_dropWhile in H.
    now rewrite existsb_rev in H.
Qed.

Lemma slice_to_contains (s : string) (n : nat) (c : ascii) :
  contains (slice_to s n) c = true -> contains s c = true.
Proof.
  unfold slice_to. revert n. induction s as [|a s IH]; intros n.
  - destruct n; discriminate.
  - destruct n; cbn [substring contains]; [discriminate|].
    intros H. apply orb_prop in H as [H|H]; [now rewrite H|].
    rewrite (IH n H). apply orb_true_r.
Qed.

(** What a returned result of the parser is made of. *)
Lemma getMetaFromObjName_done (objName shopID : string) (t : time.Time) (err : option error) :
  getMetaFromObjName objName = Done (shopID, t, err) ->
  exists second more,
    strings.Split (filepath.Base (stem objName)) "_" = shopID :: second :: more
    /\ ((exists z, err = None /\ int64Decimal second = Some z
                   /\ t = time.toLocal (time.Unix z 0))
        \/ (exists k, err = Some (NumError "ParseInt" second k) /\ int64Decimal second = None
                      /\ t = time.zero)).
Proof.
  unfold getMetaFromObjName. fold (stem objName).
  destruct (strings.Split (filepath.Base (stem objName)) "_") as [|s0 [|s1 more]] eqn:E;
    cbn [index nth_error rbind]; try discriminate.
  pose proof (ParseInt_int64Decimal s1) as HP.
  destruct (int64Decimal s1) as [z|] eqn:Ez.
  - rewrite HP. intros [= <- <- <-]. exists s1, more. split; [reflexivity|].
    left. now exists z.
  - destruct HP as (v & k & ->). intros [= <- <- <-]. exists s1, more.
    split; [reflexivity|]. right. now exists k.
Qed.

Lemma getMetaFromObjName_no_underscore (objName : string) :
  contains (filepath.Base (stem objName)) "_" = false ->
  getMetaFromObjName objName = Panic (IndexOutOfRange 1 1).
Proof.
  intros H. apply (getMetaFromObjName_one_token _ (filepath.Base (stem objName))).
  now apply Split_plain.
Qed.

Lemma getMetaFromObjName_underscore (objName : string) :
  contains (filepath.Base (stem objName)) "_" = true ->
  exists shopID t err, getMetaFromObjName objName = Done (shopID, t, err).
Proof.
  intros H. apply Split_two in H as (a & b & more & E).
  rewrite (getMetaFromObjName_tokens _ _ _ _ E).
  destruct (strconv.ParseInt b) as [v [err|]]; eauto.
Qed.

Lemma getMetaFromObjName_panic_inv (objName : string) (p : panic) :
  getMetaFromObjName objName = Panic p ->
  p = IndexOutOfRange 1 1 /\ contains (filepath.Base (stem objName)) "_" = false.
Proof.
  intros H. destruct (contains (filepath.Base (stem objName)) "_") eqn:E.
  - destruct (getMetaFromObjName_underscore _ E) as (s & t & err & Hd). congruence.
  - rewrite (getMetaFromObjName_no_underscore _ E) in H. now injection H as <-.
Qed.

(** X2. The parser panics (index out of range [1] with length 1) exactly
    when the base name of the object name, extension stripped, has no
    underscore; it has no other panic, and so it panics on every object name
    that has no underscore at all. With an underscore in the base name it
    returns. *)
Theorem getMetaFromObjName_panics_without_underscore (objName : string) :
  (getMetaFromObjName objName = Panic (IndexOutOfRange 1 1)
   <-> contains (filepath.Base (stem objName)) "_" = false)
  /\ (forall p, getMetaFromObjName objName = Panic p -> p = IndexOutOfRange 1 1)
  /\ (contains objName "_" = false ->
      getMetaFromObjName objName = Panic (IndexOutOfRange 1 1))
  /\ (contains (filepath.Base (stem objName)) "_" = true ->
      exists shopID t err, getMetaFromObjName objName = Done (shopID, t, err)).
Proof.
  split; [|split; [|split]].
  - split; [|apply getMetaFromObjName_no_underscore].
    intros H. now apply getMetaFromObjName_panic_inv in H.
  - intros p H. now apply getMetaFromObjName_panic_inv in H.
  - intros H. apply getMetaFromObjName_no_underscore.
    destruct (Base_cases (stem objName)) as [-> | [-> | [_ Hsub]]]; try reflexivity.
    destruct (contains (filepath.Base (stem objName)) "_") eqn:E; [|reflexivity].
    apply Hsub in E. unfold stem in E. apply slice_to_contains in E. congruence.
  - apply getMetaFromObjName_underscore.
Qed.

(** X3. The shop id the parser returns never holds an underscore or a path
    separator: it is the part of the base name before the first underscore. *)
Theorem getMetaFromObjName_shopID_plain (objName shopID : string) (t : time.Time)
    (err : option error) :
  getMetaFromObjName objName = Done (shopID, t, err) ->
  contains shopID "_" = false /\ contains shopID "/" = false
  /\ exists rest, filepath.Base (stem objName) = shopID ++ "_" ++ rest.
Proof.
  intros H. apply getMetaFromObjName_done in H as (second & more & E & _).
  assert (Hin : In shopID (strings.Split (filepath.Base (stem objName)) "_"))
    by (rewrite E; now left).
  split; [exact (Split_tokens_plain _ _ _ Hin)|]. split.
  - destruct (contains shopID "/") eqn:Hs; [|reflexivity].
    pose proof (Split_tokens_bytes _ _ _ _ Hin Hs) as Hb.
    destruct (Base_cases (stem objName)) as [B | [B | [B _]]];
      rewrite B in *; try discriminate E. congruence.
  - clear Hin. revert shopID second more E.
    induction (filepath.Base (stem objName)) as [|c s IH]; intros shopID second more E;
      cbn [strings.Split] in E; [discriminate|].
    destruct (Ascii.eqb_spec c "_") as [->|Hc].
    + injection E as <- _. now exists s.
    + destruct (strings.Split s "_") as [|h tl] eqn:Es; [discriminate|].
      injection E as <- Etl. subst tl.
      destruct (IH h second more eq_refl) as [rest ->].
      now exists rest.
Qed.

Lemma getMetaFromObjName_shopID_plain_witness :
  contains "shop" "_" = false /\ contains "shop" "/" = false
  /\ exists rest, filepath.Base (stem "2020/03_28/shop_12_1585400000.jpg")
                  = "shop" ++ "_" ++ rest.
Proof.
  exact (getMetaFromObjName_shopID_plain "2020/03_28/shop_12_1585400000.jpg" "shop"
           (time.toLocal (time.Unix 12 0)) None eq_refl).
Defined.

(** X4. A result the parser returns has one of two shapes: no error and the
    local time, with no nanoseconds, of a number of Unix seconds that a
    signed 64-bit word holds; or a [strconv.ParseInt] error about the second
    token, which is no such number, together with the zero time. *)
Theorem getMetaFromObjName_result_shape (objName shopID : string) (t : time.Time)
    (err : option error) :
  getMetaFromObjName objName = Done (shopID, t, err) ->
  match err with
  | None =>
      exists z, - 2 ^ 63 <= z < 2 ^ 63 /\ t = time.toLocal (time.Unix z 0)
                /\ time.unixSec t = z /\ time.loc t = time.Local /\ time.wall t = 0
  | Some e =>
      t = time.zero
      /\ exists second k, e = NumError "ParseInt" second k /\ int64Decimal second = None
  end.
Proof.
  intros H. apply getMetaFromObjName_done in H as (second & more & _ & [H|H]).
  - destruct H as (z & -> & Hz & ->).
    apply int64Decimal_decimal in Hz as [_ Hrange].
    exists z. split; [exact Hrange|]. split; [reflexivity|].
    split; [now apply unixSec_Unix|]. split; reflexivity.
  - destruct H as (k & -> & Hz & ->). split; [reflexivity|]. now exists second, k.
Qed.

Lemma getMetaFromObjName_result_shape_witness :
  time.zero = time.zero
  /\ exists second k, NumError "ParseInt" "noon" ErrSyntax = NumError "ParseInt" second k
                      /\ int64Decimal second = None.
Proof.
  exact (getMetaFromObjName_result_shape "shop42_noon.jpg" "shop42" time.zero
           (Some (NumError "ParseInt" "noon" ErrSyntax)) eq_refl).
Defined.

(** ** detectWaitingCustomersFromImg: the two loops *)

Lemma facesLoop_step (id : string) (fd : option rekognition.FaceDetail.t)
    (rest : list (option rekognition.FaceDetail.t)) (acc : list waitingCustomerMeta) :
  facesLoop id (fd :: rest) acc
    = match metaOfFace id fd with
      | Some c => facesLoop id rest (acc ++ [c])%list
      | None => Panic NilDereference
      end.
Proof.
  cbn [facesLoop]. unfold metaOfFace.
  destruct fd as [fd|]; [|reflexivity]. cbn [deref rbind].
  destruct (rekognition.FaceDetail.Gender fd) as [g|]; [|reflexivity].
  cbn [deref rbind].
  destruct (rekognition.Gender.Value g) as [gender|];
    [|destruct (rekognition.FaceDetail.AgeRange fd), (rekognition.FaceDetail.Confidence fd);
      reflexivity].
  destruct (rekognition.Gender.Confidence g) as [gc|];
    [|destruct (rekognition.FaceDetail.AgeRange fd), (rekognition.FaceDetail.Confidence fd);
      reflexivity].
  cbn [deref rbind].
  destruct (rekognition.FaceDetail.AgeRange fd) as [a|]; [|reflexivity].
  cbn [deref rbind].
  destruct (rekognition.AgeRange.Low a) as [low|];
    [|destruct (rekognition.FaceDetail.Confidence fd); reflexivity].
  destruct (rekognition.AgeRange.High a) as [high|];
    [|destruct (rekognition.FaceDetail.Confidence fd); reflexivity].
  cbn [deref rbind].
  destruct (rekognition.FaceDetail.Confidence fd) as [c|]; reflexivity.
Qed.

Lemma metaOfFace_populated (id : string) (fd : option rekognition.FaceDetail.t) :
  facePopulated fd = true <-> exists c, metaOfFace id fd = Some c.
Proof.
  unfold facePopulated, metaOfFace.
  destruct fd as [fd|]; [|split; [discriminate | intros [c H]; discriminate]].
  destruct (rekognition.FaceDetail.Gender fd) as [g|],
           (rekognition.FaceDetail.AgeRange fd) as [a|],
           (rekognition.FaceDetail.Confidence fd) as [c|];
    try (split; [discriminate | intros [x H]; discriminate]).
  destruct (rekognition.Gender.Value g), (rekognition.Gender.Confidence g),
           (rekognition.AgeRange.Low a), (rekognition.AgeRange.High a);
    try (split; [discriminate | intros [x H]; discriminate]).
  split; [eauto | reflexivity].
Qed.

Lemma facesLoop_spec (id : string) (faces : list (option rekognition.FaceDetail.t)) :
  forall acc r,
    facesLoop id faces acc = Done r
    <-> exists more, r = (acc ++ more)%list /\ map (metaOfFace id) faces = map Some more.
Proof.
  induction faces as [|fd rest IH]; intros acc r.
  - cbn [facesLoop map]. split.
    + intros [= <-]. exists []. now rewrite app_nil_r.
    + intros (more & -> & Hm). destruct more; [|discriminate]. now rewrite app_nil_r.
  - rewrite facesLoop_step. cbn [map]. destruct (metaOfFace id fd) as [c|].
    + rewrite IH. split.
      * intros (more & -> & Hm). exists (c :: more).
        rewrite <- app_assoc. cbn [map app]. now rewrite Hm.
      * intros (more & -> & Hm). destruct more as [|c' more]; [discriminate|].
        cbn [map] in Hm. injection Hm as <- Hm. exists more.
        now rewrite <- app_assoc.
    + split; [discriminate|]. intros (more & _ & Hm).
      destruct more; discriminate.
Qed.

(** X5. The face loop returns exactly the records of the faces, in the order
    of the faces: the i-th record carries the gender, gender confidence, age
    bounds and confidence of the i-th face and the given observation id.
    No face is filtered out and none is reordered. *)
Theorem facesLoop_maps_each_face (id : string)
    (faces : list (option rekognition.FaceDetail.t)) (customers : list waitingCustomerMeta) :
  facesLoop id faces [] = Done customers
  <-> map (metaOfFace id) faces = map Some customers.
Proof.
  rewrite facesLoop_spec. split.
  - now intros (more & -> & Hm).
  - intros Hm. now exists customers.
Qed.

Lemma facesLoop_ends (id : string) (faces : list (option rekognition.FaceDetail.t)) :
  forall acc,
    if forallb facePopulated faces
    then exists r, facesLoop id faces acc = Done r
    else facesLoop id faces acc = Panic NilDereference.
Proof.
  induction faces as [|fd rest IH]; intros acc.
  - now exists acc.
  - rewrite facesLoop_step. cbn [forallb].
    destruct (facePopulated fd) eqn:Hfd.
    + apply (metaOfFace_populated id) in Hfd as [c ->]. apply IH.
    + destruct (metaOfFace id fd) as [c|] eqn:Hc; [|reflexivity].
      assert (facePopulated fd = true) by (apply (metaOfFace_populated id); eauto).
      congruence.
Qed.

Lemma facesLoop_panic_inv (id : string) (faces : list (option rekognition.FaceDetail.t))
    (acc : list waitingCustomerMeta) (p : panic) :
  facesLoop id faces acc = Panic p ->
  p = NilDereference /\ forallb facePopulated faces = false.
Proof.
  intros H. pose proof (facesLoop_ends id faces acc) as E.
  destruct (forallb facePopulated faces).
  - destruct E as [r Hr]. congruence.
  - split; congruence.
Qed.

Lemma labelsLoop_panic_inv (labels : list (option rekognition.Label.t)) :
  forall a p, labelsLoop labels a = Panic p -> p = NilDereference.
Proof.
  induction labels as [|label rest IH]; intros a p H; [discriminate|].
  cbn [labelsLoop] in H.
  destruct label as [l|]; [|now injection H]. cbn [deref rbind] in H.
  destruct (rekognition.Label.Confidence l) as [c|]; [|now injection H].
  cbn [deref rbind] in H.
  destruct (c <? 0.5)%float; [now apply IH in H|].
  destruct (rekognition.Label.Name l) as [name|]; [|now injection H].
  cbn [deref rbind] in H. destruct (String.eqb name "Person"); now apply IH in H.
Qed.

(** X6. The face loop panics on a nil pointer exactly when some face detail,
    or one of its attributes, is missing, wherever in the list it stands and
    whatever was collected before it; otherwise it returns. It ends in no
    other way. *)
Theorem facesLoop_panics_on_missing_attribute (id : string)
    (faces : list (option rekognition.FaceDetail.t)) (acc : list waitingCustomerMeta) :
  (forallb facePopulated faces = false <-> facesLoop id faces acc = Panic NilDereference)
  /\ (forallb facePopulated faces = true <-> exists r, facesLoop id faces acc = Done r)
  /\ (forall p, facesLoop id faces acc = Panic p -> p = NilDereference).
Proof.
  pose proof (facesLoop_ends id faces acc) as H.
  destruct (forallb facePopulated faces).
  - destruct H as [r Hr]. split; [|split].
    + split; [discriminate | congruence].
    + split; eauto.
    + congruence.
  - split; [|split].
    + split; auto.
    + split; [discriminate|]. intros [r Hr]. congruence.
    + congruence.
Qed.

(** X7. Whatever the labels are (nil names under the threshold and
    confidences that are no number included), a count the label loop
    returns is 0 or the instance count of one of the labels, named "Person"
    and with a confidence that is not below 0.5; so it is never negative. *)
Theorem labelsLoop_count_is_an_instance_count
    (labels : list (option rekognition.Label.t)) (n : Z) :
  labelsLoop labels 0 = Done n ->
  0 <= n
  /\ (n = 0 \/ exists l c,
        In (Some l) labels
        /\ rekognition.Label.Name l = Some "Person"
        /\ rekognition.Label.Confidence l = Some c /\ (c <? 0.5)%float = false
        /\ n = Z.of_nat (List.length (rekognition.Label.Instances l))).
Proof.
  assert (H : forall a, labelsLoop labels a = Done n ->
             n = a \/ exists l c,
               In (Some l) labels
               /\ rekognition.Label.Name l = Some "Person"
               /\ rekognition.Label.Confidence l = Some c /\ (c <? 0.5)%float = false
               /\ n = Z.of_nat (List.length (rekognition.Label.Instances l))).
  { induction labels as [|label rest IH]; intros a Ha.
    - left. now injection Ha.
    - cbn [labelsLoop] in Ha.
      destruct label as [l|]; [|discriminate]. cbn [deref rbind] in Ha.
      destruct (rekognition.Label.Confidence l) as [c|] eqn:Ec; [|discriminate].
      cbn [deref rbind] in Ha.
      assert (Hrest : forall a', labelsLoop rest a' = Done n ->
                n = a' \/ exists l0 c0,
                  In (Some l0) (Some l :: rest)
                  /\ rekognition.Label.Name l0 = Some "Person"
                  /\ rekognition.Label.Confidence l0 = Some c0
                  /\ (c0 <? 0.5)%float = false
                  /\ n = Z.of_nat (List.length (rekognition.Label.Instances l0))).
      { intros a' Ha'. destruct (IH a' Ha') as [->|(l0 & c0 & Hin & Hrest)];
          [now left|]. right. exists l0, c0. split; [now right | exact Hrest]. }
      destruct (c <? 0.5)%float eqn:Elow; [now apply Hrest|].
      destruct (rekognition.Label.Name l) as [name|] eqn:En; [|discriminate].
      cbn [deref rbind] in Ha.
      destruct (String.eqb_spec name "Person") as [->|Hne]; [|now apply Hrest].
      destruct (Hrest _ Ha) as [->|Hlater]; [|now right].
      right. exists l, c. repeat split; try assumption. now left. }
  intros Hrun. destruct (H 0 Hrun) as [->|(l & c & Hin & Hname & Hc & Hlow & ->)].
  - split; [lia | now left].
  - split; [lia|]. right. now exists l, c.
Qed.

Lemma labelsLoop_count_is_an_instance_count_witness :
  0 <= 2
  /\ (2 = 0 \/ exists l c,
        In (Some l) [personLabel 0.9 [None; None];
                     Some {| rekognition.Label.Name := None;
                             rekognition.Label.Confidence := Some 0.25%float;
                             rekognition.Label.Instances := [] |}]
        /\ rekognition.Label.Name l = Some "Person"
        /\ rekognition.Label.Confidence l = Some c /\ (c <? 0.5)%float = false
        /\ 2 = Z.of_nat (List.length (rekognition.Label.Instances l))).
Proof.
  exact (labelsLoop_count_is_an_instance_count
           [personLabel 0.9 [None; None];
            Some {| rekognition.Label.Name := None;
                    rekognition.Label.Confidence := Some 0.25%float;
                    rekognition.Label.Instances := [] |}] 2 eq_refl).
Defined.

(** ** mustEnv *)

(** X1. [mustEnv] never returns an empty value: it returns the variable's
    value when that is not empty, and otherwise logs a fatal error that names
    the key and ends the process with status 1. It reads the environment
    once, never panics and touches no table. *)
Theorem mustEnv_never_returns_empty (key : string) (w : World) (st st' : State)
    (r : result string) :
  mustEnv key w st = (st', r) ->
  tables st' = tables st
  /\ match r with
     | Done v =>
         v <> "" /\ v = os_Getenv w key
         /\ trace st' = (trace st ++ [CallGetenv key v])%list
     | Exit s =>
         s = 1 /\ os_Getenv w key = ""
         /\ trace st'
            = (trace st ++
                 [CallGetenv key "";
                  CallLogFatal (Errorf ("env variable with key=" ++ key ++ " is not found"))])%list
     | Panic _ => False
     end.
Proof.
  unfold mustEnv, osGetenv, logFatal, bind, ask, log, ret, osExit. cbn [trace tables].
  destruct (String.eqb_spec (os_Getenv w key) "") as [E|E]; intros [= <- <-]; cbn [trace tables].
  - split; [reflexivity|]. split; [reflexivity|]. split; [assumption|].
    rewrite E, <- app_assoc. reflexivity.
  - split; [reflexivity|]. now split.
Qed.

Lemma mustEnv_never_returns_empty_witness :
  "fast-lane" <> "" /\ "fast-lane" = os_Getenv exampleWorld "GCP_PROJECT_ID"
  /\ [CallGetenv "GCP_PROJECT_ID" "fast-lane"]
     = ([] ++ [CallGetenv "GCP_PROJECT_ID" "fast-lane"])%list.
Proof.
  exact (proj2 (mustEnv_never_returns_empty "GCP_PROJECT_ID" exampleWorld
                  {| trace := []; tables := emptyTables |}
                  {| trace := [CallGetenv "GCP_PROJECT_ID" "fast-lane"];
                     tables := emptyTables |}
                  (Done "fast-lane") eq_refl)).
Defined.

(** ** detectWaitingCustomersFromImg as a whole *)

Ltac detect_unfold H :=
  cbv [detectWaitingCustomersFromImg sessionNewSession ioutilReadAll svcDetectLabels
       svcDetectFaces bind ret lift ask log errOf] in H;
  cbn [trace tables] in H.

Ltac detect_case H :=
  match type of H with
  | context [match ?x with _ => _ end] =>
      lazymatch x with
      | context [match _ with _ => _ end] => fail
      | _ => let E := fresh "E" in destruct x eqn:E; detect_unfold H
      end
  end.

(** X8. When [detectWaitingCustomersFromImg] returns an error, it returns
    the count 0 and no customer with it, also when the labels had already
    given a count and face detection failed after that; the error is the
    failing call's error wrapped with the name of that call, and no table is
    touched. *)
Theorem detect_failure_returns_nothing (id : string) (reader : Reader) (w : World)
    (st st' : State) (n : Z) (customers : list waitingCustomerMeta) (err : error) :
  detectWaitingCustomersFromImg id reader w st = (st', Done (n, customers, Some err)) ->
  n = 0 /\ customers = [] /\ tables st' = tables st
  /\ ((exists cause, session_NewSession w = Some cause
                     /\ err = Wrap cause "new aws session")
      \/ (exists cause, session_NewSession w = None /\ contents reader = inl cause
                        /\ err = Wrap cause "read img bytes from reader")
      \/ (exists image cause, contents reader = inr image
                              /\ DetectLabels w image = inl cause
                              /\ err = Wrap cause "detect labels")
      \/ (exists image out count cause,
            contents reader = inr image /\ DetectLabels w image = inr out
            /\ labelsLoop (rekognition.Labels out) 0 = Done count
            /\ DetectFaces w image = inl cause
            /\ err = Wrap cause "detect faces")).
Proof.
  intros H. detect_unfold H.
  repeat (detect_case H; try discriminate H);
    injection H as <- <- <- <-; cbn [tables];
    (split; [reflexivity|]); (split; [reflexivity|]); (split; [reflexivity|]).
  - left. eauto.
  - right; left. eauto.
  - right; right; left. eauto.
  - right; right; right. eauto 10.
Qed.

Lemma detect_failure_returns_nothing_witness :
  0 = 0 /\ (@nil waitingCustomerMeta) = [] /\ emptyTables = emptyTables
  /\ ((exists cause, session_NewSession facesDownWorld = Some cause
                     /\ Wrap (ServiceError "ThrottlingException") "detect faces"
                        = Wrap cause "new aws session")
      \/ (exists cause, session_NewSession facesDownWorld = None
                        /\ contents exampleReader = inl cause
                        /\ Wrap (ServiceError "ThrottlingException") "detect faces"
                           = Wrap cause "read img bytes from reader")
      \/ (exists image cause, contents exampleReader = inr image
                              /\ DetectLabels facesDownWorld image = inl cause
                              /\ Wrap (ServiceError "ThrottlingException") "detect faces"
                                 = Wrap cause "detect labels")
      \/ (exists image out count cause,
            contents exampleReader = inr image /\ DetectLabels facesDownWorld image = inr out
            /\ labelsLoop (rekognition.Labels out) 0 = Done count
            /\ DetectFaces facesDownWorld image = inl cause
            /\ Wrap (ServiceError "ThrottlingException") "detect faces"
               = Wrap cause "detect faces")).
Proof.
  exact (detect_failure_returns_nothing "9m4e2mr0ui3e8a215n4g"
           exampleReader facesDownWorld
           {| trace := []; tables := emptyTables |}
           {| trace := [CallNewSession None; CallReadAll (inr (bytes "JFIF"));
                        CallDetectLabels (bytes "JFIF") None;
                        CallDetectFaces (bytes "JFIF") 0
                          (Some (ServiceError "ThrottlingException"))];
              tables := emptyTables |}
           0 [] (Wrap (ServiceError "ThrottlingException") "detect faces") eq_refl).
Defined.

(** X9. When [detectWaitingCustomersFromImg] returns without error, it has
    read the object once, given the same bytes to label detection and then
    to face detection, and returns the count of the label loop and the
    records of the face loop; it made these four calls and no other, and
    touched no table. *)
Theorem detect_success_uses_one_read (id : string) (reader : Reader) (w : World)
    (st st' : State) (n : Z) (customers : list waitingCustomerMeta) :
  detectWaitingCustomersFromImg id reader w st = (st', Done (n, customers, None)) ->
  exists image labels faces,
    contents reader = inr image
    /\ DetectLabels w image = inr labels
    /\ labelsLoop (rekognition.Labels labels) 0 = Done n
    /\ DetectFaces w image = inr faces
    /\ facesLoop id (rekognition.FaceDetails faces) [] = Done customers
    /\ trace st'
       = (trace st ++
            [CallNewSession None; CallReadAll (inr image); CallDetectLabels image None;
             CallDetectFaces image (List.length (rekognition.FaceDetails faces)) None])%list
    /\ tables st' = tables st.
Proof.
  intros H. detect_unfold H.
  repeat (detect_case H; try discriminate H).
  injection H as <- <- <-. cbn [trace tables].
  match goal with
  | L : DetectLabels w ?image = inr ?labels, F : DetectFaces w ?image = inr ?faces |- _ =>
      exists image, labels, faces
  end.
  repeat (split; [first [assumption | reflexivity]|]).
  split; [|reflexivity]. rewrite <- !app_assoc. reflexivity.
Qed.

Lemma detect_success_uses_one_read_witness :
  exists image labels faces,
    contents exampleReader = inr image
    /\ DetectLabels exampleWorld image = inr labels
    /\ labelsLoop (rekognition.Labels labels) 0 = Done 2
    /\ DetectFaces exampleWorld image = inr faces
    /\ facesLoop "9m4e2mr0ui3e8a215n4g" (rekognition.FaceDetails faces) []
       = Done [{| LineObservationID := "9m4e2mr0ui3e8a215n4g"; Gender := "Female";
                  GenderConfidence := 98.2%float; LowestAge := 20; HighestAge := 30;
                  Confidence := 99.1%float |}]
    /\ [CallNewSession None; CallReadAll (inr (bytes "JFIF"));
        CallDetectLabels (bytes "JFIF") None; CallDetectFaces (bytes "JFIF") 1 None]
       = ([] ++
            [CallNewSession None; CallReadAll (inr image); CallDetectLabels image None;
             CallDetectFaces image (List.length (rekognition.FaceDetails faces)) None])%list
    /\ emptyTables = emptyTables.
Proof.
  exact (detect_success_uses_one_read "9m4e2mr0ui3e8a215n4g"
           exampleReader exampleWorld
           {| trace := []; tables := emptyTables |}
           {| trace := [CallNewSession None; CallReadAll (inr (bytes "JFIF"));
                        CallDetectLabels (bytes "JFIF") None;
                        CallDetectFaces (bytes "JFIF") 1 None];
              tables := emptyTables |}
           2 [{| LineObservationID := "9m4e2mr0ui3e8a215n4g"; Gender := "Female";
                 GenderConfidence := 98.2%float; LowestAge := 20; HighestAge := 30;
                 Confidence := 99.1%float |}] eq_refl).
Defined.

(** ** AnalyzeLineImage: what it leaves in the store *)

Lemma addRows_other (dataset table d t : string) (rows : list row) (tb : Tables) :
  (d, t) <> (dataset, table) -> addRows dataset table rows tb d t = tb d t.
Proof.
  intros H. unfold addRows.
  destruct (String.eqb_spec d dataset) as [->|_]; [|reflexivity].
  destruct (String.eqb_spec t table) as [->|_]; [|reflexivity].
  now contradiction H.
Qed.

Lemma addRows_same (dataset table : string) (rows : list row) (tb : Tables) :
  addRows dataset table rows tb dataset table = (tb dataset table ++ rows)%list.
Proof. unfold addRows. now rewrite !String.eqb_refl. Qed.

(** X10. An invocation only appends: every table other than the two of the
    function is left as it was, the observation table gains at most one row,
    an observation row, and the meta table gains meta rows only; rows that
    were there stay, in their order. Nothing at all is written unless the
    observation write was made and accepted. *)
Theorem tables_only_grow (w : World) (t0 : Tables) (e : gcsEvent) :
  (forall d t,
     (d, t) <> (fastLaneDataset, lineObservationTable) ->
     (d, t) <> (fastLaneDataset, waitingCustomerMetaTable) ->
     tablesOf w t0 e d t = t0 d t)
  /\ (tablesOf w t0 e fastLaneDataset lineObservationTable
        = t0 fastLaneDataset lineObservationTable
      \/ exists lo,
        tablesOf w t0 e fastLaneDataset lineObservationTable
          = (t0 fastLaneDataset lineObservationTable ++ [ObservationRow lo])%list)
  /\ (exists customers,
        tablesOf w t0 e fastLaneDataset waitingCustomerMetaTable
          = (t0 fastLaneDataset waitingCustomerMetaTable ++ map MetaRow customers)%list)
  /\ ((forall rows,
         ~ In (CallPut fastLaneDataset lineObservationTable rows None) (traceOf w t0 e)) ->
      tablesOf w t0 e = t0).
Proof.
  split; [|split; [|split]].
  - intros d t Ho Hm. run_cases w t0 e; try reflexivity.
    + now rewrite addRows_other.
    + now rewrite addRows_other.
    + now rewrite !addRows_other.
  - run_cases w t0 e; try (left; reflexivity);
      right; eexists; rewrite ?(addRows_other fastLaneDataset waitingCustomerMetaTable)
        by discriminate; apply addRows_same.
  - run_cases w t0 e;
      try (exists []; cbn [map]; rewrite app_nil_r;
           rewrite ?(addRows_other fastLaneDataset lineObservationTable) by discriminate;
           reflexivity).
    exists customers. now rewrite addRows_same, addRows_other by discriminate.
  - intros H. run_cases w t0 e; try reflexivity; exfalso;
      apply (H [ObservationRow (observation w shopID observedAt n)]);
      unfold evFaces, evLabels, evRead, evSession, evOpen, evParse, evClients, evConfig, evGcs;
      cbn [app In]; do 11 right; left; reflexivity.
Qed.

(** ** AnalyzeLineImage: when it succeeds, and how else it ends *)

Ltac goal_unfold :=
  cbv [AnalyzeLineImage detectWaitingCustomersFromImg mustEnv InserterPut
       timeNow storageNewClient osGetenv logFatal bigqueryNewClient xidNew
       objNewReader sessionNewSession ioutilReadAll svcDetectLabels svcDetectFaces
       appendRows bind ret lift ask log osExit errOf trace tables app].

(** X11. When every collaborator answers (both clients are made, the project
    identifier is set, the name parses, the object is opened and read, both
    detections answer and their loops return, and the store accepts the rows
    it is sent), the invocation returns nil, and it has appended exactly one
    observation row, made of the parsed shop id and time, the generated id,
    the clock read at the start and the label count, and one meta row per
    face. *)
Theorem answered_invocation_persists (w : World) (t0 : Tables) (e : gcsEvent)
    (shopID : string) (observedAt : time.Time) (image : list ascii) (n : Z)
    (nfaces : nat) (customers : list waitingCustomerMeta) :
  detected w e shopID observedAt image n nfaces customers ->
  Tabledata_InsertAll w fastLaneDataset lineObservationTable
    [ObservationRow (observation w shopID observedAt n)] = None ->
  (customers <> [] ->
   Tabledata_InsertAll w fastLaneDataset waitingCustomerMetaTable (metaRows customers)
     = None) ->
  outcome w t0 e = Done None
  /\ tablesOf w t0 e fastLaneDataset lineObservationTable
     = (t0 fastLaneDataset lineObservationTable
          ++ [ObservationRow
                {| ID := xid_New w; ShopID := shopID; WaitingPeopleNum := n;
                   ObservedAt := observedAt; CreatedAt := time_Now w |}])%list
  /\ tablesOf w t0 e fastLaneDataset waitingCustomerMetaTable
     = (t0 fastLaneDataset waitingCustomerMetaTable ++ map MetaRow customers)%list
  /\ List.length customers = nfaces.
Proof.
  intros D Hobs Hmeta.
  pose proof (detected_customers _ _ _ _ _ _ _ _ D) as [Hlen _].
  unfold detected, labelled, imageRead, opened, parsed, clientsOk, projectID in D.
  destruct D as (fout & (lout & (reader & (((Hgcs & Henv & Hbq) & Hparse) & Hopen)
                                 & Hsess & Hread) & Hlabels & Hloop) & Hfaces & _ & Hfloop).
  apply String.eqb_neq in Henv.
  unfold observation, metaRows in *.
  assert (Hrun : run w t0 e
            = ({| trace := (evFaces w e image (List.length (rekognition.FaceDetails fout)) ++
                    [CallPut fastLaneDataset lineObservationTable
                       [ObservationRow (observation w shopID observedAt n)] None;
                     CallPut fastLaneDataset waitingCustomerMetaTable
                       (map MetaRow customers) None])%list;
                  tables :=
                    match customers with
                    | [] => addRows fastLaneDataset lineObservationTable
                              [ObservationRow (observation w shopID observedAt n)] t0
                    | _ => addRows fastLaneDataset waitingCustomerMetaTable
                             (map MetaRow customers)
                             (addRows fastLaneDataset lineObservationTable
                                [ObservationRow (observation w shopID observedAt n)] t0)
                    end |}, Done None)).
  { unfold run. goal_unfold.
    rewrite Hgcs. goal_unfold. rewrite Henv. goal_unfold. rewrite Hbq. goal_unfold.
    rewrite Hparse. goal_unfold. rewrite Hopen. goal_unfold. rewrite Hsess. goal_unfold.
    rewrite Hread. goal_unfold. rewrite Hlabels. goal_unfold. rewrite Hloop. goal_unfold.
    rewrite Hfaces. goal_unfold. rewrite Hfloop. goal_unfold.
    rewrite Hobs. goal_unfold.
    destruct customers as [|c cs].
    - reflexivity.
    - cbn [map] in *. rewrite Hmeta by discriminate. reflexivity. }
  unfold outcome, tablesOf. rewrite Hrun. cbn [fst snd tables].
  split; [reflexivity|]. split; [|split; [|exact Hlen]].
  - destruct customers.
    + apply addRows_same.
    + rewrite addRows_other by discriminate. apply addRows_same.
  - destruct customers.
    + rewrite addRows_other by discriminate. cbn [map]. now rewrite app_nil_r.
    + rewrite addRows_same. now rewrite addRows_other by discriminate.
Qed.

Lemma answered_invocation_persists_witness :
  outcome exampleWorld emptyTables exampleEvent = Done None
  /\ tablesOf exampleWorld emptyTables exampleEvent fastLaneDataset lineObservationTable
     = (emptyTables fastLaneDataset lineObservationTable
          ++ [ObservationRow
                {| ID := xid_New exampleWorld; ShopID := "shop42"; WaitingPeopleNum := 2;
                   ObservedAt := time.toLocal (time.Unix 1700000000 0);
                   CreatedAt := time_Now exampleWorld |}])%list
  /\ tablesOf exampleWorld emptyTables exampleEvent fastLaneDataset waitingCustomerMetaTable
     = (emptyTables fastLaneDataset waitingCustomerMetaTable
          ++ map MetaRow
               [{| LineObservationID := "9m4e2mr0ui3e8a215n4g"; Gender := "Female";
                   GenderConfidence := 98.2%float; LowestAge := 20; HighestAge := 30;
                   Confidence := 99.1%float |}])%list
  /\ List.length
       [{| LineObservationID := "9m4e2mr0ui3e8a215n4g"; Gender := "Female";
           GenderConfidence := 98.2%float; LowestAge := 20; HighestAge := 30;
           Confidence := 99.1%float |}] = 1%nat.
Proof.
  apply (answered_invocation_persists exampleWorld emptyTables exampleEvent "shop42"
           (time.toLocal (time.Unix 1700000000 0)) (bytes "JFIF") 2 1).
  - exists {| rekognition.FaceDetails := [exampleFace] |}.
    split; [|repeat split; reflexivity].
    exists {| rekognition.Labels := [personLabel 0.9 [None; None]] |}.
    split; [|split; reflexivity].
    exists exampleReader. repeat split; try reflexivity. discriminate.
  - reflexivity.
  - intros _. reflexivity.
Defined.

(** X12. An invocation ends the process only through [mustEnv]: with status
    1, when the project identifier is empty and the object-source client was
    made. It panics only where the parser indexes a second token that is not
    there, or where a loop dereferences a nil pointer of the detection
    result. In both cases no table has been touched. *)
Theorem abnormal_ends (w : World) (t0 : Tables) (e : gcsEvent) :
  (forall s, outcome w t0 e = Exit s ->
     s = 1 /\ storage_NewClient w = None /\ os_Getenv w "GCP_PROJECT_ID" = ""
     /\ tablesOf w t0 e = t0)
  /\ (forall p, outcome w t0 e = Panic p ->
     tablesOf w t0 e = t0
     /\ ((p = IndexOutOfRange 1 1
          /\ contains (filepath.Base (stem (ObjectName e))) "_" = false)
         \/ (p = NilDereference
             /\ exists image,
                  (exists out, DetectLabels w image = inr out
                     /\ labelsLoop (rekognition.Labels out) 0 = Panic NilDereference)
                  \/ (exists out, DetectFaces w image = inr out
                        /\ forallb facePopulated (rekognition.FaceDetails out) = false)))).
Proof.
  split.
  - intros s H. run_cases w t0 e; try discriminate H.
    injection H as <-. repeat split; assumption.
  - intros p0 H. run_cases w t0 e; try discriminate H; injection H as <-;
      (split; [reflexivity|]).
    + left. now apply getMetaFromObjName_panic_inv.
    + right.
      match goal with
      | L : labelsLoop _ 0 = Panic ?q |- _ =>
          pose proof (labelsLoop_panic_inv _ _ _ L); subst q
      end.
      split; [reflexivity|]. exists image. left. eauto.
    + right.
      match goal with
      | F : facesLoop _ _ [] = Panic ?q |- _ =>
          apply facesLoop_panic_inv in F as [-> F]
      end.
      split; [reflexivity|]. exists image. right. eauto.
Qed.


Lemma success_rows (w : World) (t0 : Tables) (e : gcsEvent) :
  outcome w t0 e = Done None ->
  exists shopID observedAt n,
    getMetaFromObjName (ObjectName e) = Done (shopID, observedAt, None)
    /\ tablesOf w t0 e fastLaneDataset lineObservationTable
       = (t0 fastLaneDataset lineObservationTable
            ++ [ObservationRow (observation w shopID observedAt n)])%list.
Proof.
  intros H. run_cases w t0 e; try discriminate H;
    exists shopID, observedAt, n;
    match goal with
    | D : detected _ _ _ _ _ _ _ _ |- _ =>
        unfold detected, labelled, imageRead, opened, parsed in D;
        destruct D as (fout & (out & (reader & ((_ & Hparsed) & _) & _) & _) & _)
    end;
    (split; [assumption|]);
    rewrite ?(addRows_other fastLaneDataset waitingCustomerMetaTable) by discriminate;
    apply addRows_same.
Qed.

(** X13. Nothing deduplicates: when the same event is delivered twice and
    both invocations return nil, the observation table holds two rows for it
    after the second, one after the other, with the same shop id and
    observation time, each under the identifier of its own invocation. *)
Theorem redelivery_appends_again (w1 w2 : World) (t0 : Tables) (e : gcsEvent) :
  outcome w1 t0 e = Done None ->
  outcome w2 (tablesOf w1 t0 e) e = Done None ->
  exists lo1 lo2,
    tablesOf w2 (tablesOf w1 t0 e) e fastLaneDataset lineObservationTable
      = (t0 fastLaneDataset lineObservationTable
           ++ [ObservationRow lo1; ObservationRow lo2])%list
    /\ ID lo1 = xid_New w1 /\ ID lo2 = xid_New w2
    /\ ShopID lo1 = ShopID lo2 /\ ObservedAt lo1 = ObservedAt lo2.
Proof.
  intros H1 H2.
  apply success_rows in H1 as (s1 & o1 & n1 & P1 & T1).
  apply success_rows in H2 as (s2 & o2 & n2 & P2 & T2).
  rewrite P1 in P2. injection P2 as <- <-.
  exists (observation w1 s1 o1 n1), (observation w2 s1 o1 n2).
  rewrite T2, T1, <- app_assoc. repeat split; reflexivity.
Qed.

Lemma redelivery_appends_again_witness :
  exists lo1 lo2,
    tablesOf exampleWorld (tablesOf exampleWorld emptyTables exampleEvent) exampleEvent
      fastLaneDataset lineObservationTable
      = (emptyTables fastLaneDataset lineObservationTable
           ++ [ObservationRow lo1; ObservationRow lo2])%list
    /\ ID lo1 = xid_New exampleWorld /\ ID lo2 = xid_New exampleWorld
    /\ ShopID lo1 = ShopID lo2 /\ ObservedAt lo1 = ObservedAt lo2.
Proof.
  exact (redelivery_appends_again exampleWorld exampleWorld emptyTables exampleEvent
           eq_refl eq_refl).
Defined.

(** X14. The first call that answers with an error is the last call of the
    invocation: nothing is retried and nothing is attempted after it, and
    the invocation returns that very error, wrapped with the labels of the
    step the call belongs to. *)
Theorem first_failure_ends_invocation (w : World) (t0 : Tables) (e : gcsEvent)
    (ev : event) (err0 : error) :
  In ev (traceOf w t0 e) -> evError ev = Some err0 ->
  (exists pre, traceOf w t0 e = (pre ++ [ev])%list)
  /\ exists s, stageOf ev = Some s
               /\ outcome w t0 e = Done (Some (wrapAll err0 (stageLabels e s))).
Proof.
  intros Hin Herr.
  run_cases w t0 e; names_unfold; trace_in Hin; subst ev; cbn [evError] in Herr;
    try discriminate Herr; injection Herr as ->;
    (split;
     [ first [ eexists; reflexivity
             | exists [CallTimeNow (time_Now w)]; reflexivity
             | eexists (_ ++ [_])%list; rewrite <- app_assoc; reflexivity ]
     | eexists; split; reflexivity ]).
Qed.

Lemma first_failure_ends_invocation_witness :
  (exists pre,
     traceOf facesDownWorld emptyTables exampleEvent
       = (pre ++ [CallDetectFaces (bytes "JFIF") 0
                    (Some (ServiceError "ThrottlingException"))])%list)
  /\ exists s,
       stageOf (CallDetectFaces (bytes "JFIF") 0 (Some (ServiceError "ThrottlingException")))
         = Some s
       /\ outcome facesDownWorld emptyTables exampleEvent
          = Done (Some (wrapAll (ServiceError "ThrottlingException")
                          (stageLabels exampleEvent s))).
Proof.
  apply (first_failure_ends_invocation facesDownWorld emptyTables exampleEvent).
  - vm_compute. do 10 right. left. reflexivity.
  - reflexivity.
Defined.

(** X16. The name is parsed before the object is touched: when the object
    name does not parse (an error or a panic), the invocation opens no read
    stream, makes no detection call and no store write, and leaves the
    tables as they were. *)
Theorem unparsed_name_touches_nothing (w : World) (t0 : Tables) (e : gcsEvent) :
  (forall shopID observedAt,
     getMetaFromObjName (ObjectName e) <> Done (shopID, observedAt, None)) ->
  (forall ev, In ev (traceOf w t0 e) ->
     stageOf ev <> Some StOpenObject /\ isDetection ev = false /\ isStoreWrite ev = false)
  /\ tablesOf w t0 e = t0.
Proof.
  intros Hbad.
  run_cases w t0 e;
    try (exfalso;
         unfold detected, labelled, imageRead, opened, parsed in *;
         repeat match goal with
                | H : exists _, _ |- _ => destruct H
                | H : _ /\ _ |- _ => destruct H
                end;
         eapply Hbad; eassumption);
    (split; [|reflexivity]);
    intros ev Hev; trace_in Hev; subst ev; repeat split; discriminate.
Qed.

Lemma unparsed_name_touches_nothing_witness :
  (forall ev, In ev (traceOf exampleWorld emptyTables badNameEvent) ->
     stageOf ev <> Some StOpenObject /\ isDetection ev = false /\ isStoreWrite ev = false)
  /\ tablesOf exampleWorld emptyTables badNameEvent = emptyTables.
Proof.
  apply (unparsed_name_touches_nothing exampleWorld emptyTables badNameEvent).
  intros shopID observedAt. vm_compute. discriminate.
Defined.

(** ** getMetaFromObjName: names without an extension *)

Lemma slice_to_all (s : string) : slice_to s (len s) = s.
Proof.
  unfold slice_to, len. induction s as [|c s IH]; cbn [String.length substring];
    [reflexivity | now rewrite IH].
Qed.

Lemma Ext_none (dir name : string) :
  isDirPrefix dir = true -> contains name "." = false -> contains name "/" = false ->
  filepath.Ext (dir ++ name) = "".
Proof.
  intros Hdir Hdot Hsep. rewrite contains_existsb in Hdot, Hsep.
  unfold filepath.Ext. rewrite bytes_app, rev_app_distr.
  rewrite ext_scan_plain by now rewrite existsb_rev.
  unfold isDirPrefix in Hdir.
  destruct (rev (bytes dir)) as [|c r]; [reflexivity|].
  cbn [filepath.ext_scan]. now rewrite Hdir.
Qed.

(** X17. The extension is optional: an object name
    [dir ++ shop ++ "_" ++ epoch] with no dot after its last path separator
    parses like one with an extension, to [shop] and the local time of
    [epoch] Unix seconds. (Dots in the directory part are not taken for an
    extension.) *)
Theorem getMetaFromObjName_without_extension (dir shop epoch : string) (z : Z) :
  isDirPrefix dir = true ->
  contains shop "_" = false -> contains shop "/" = false -> contains shop "." = false ->
  int64Decimal epoch = Some z ->
  getMetaFromObjName (dir ++ shop ++ "_" ++ epoch)
    = Done (shop, time.toLocal (time.Unix z 0), None).
Proof.
  intros Hdir Hshop_ Hshop Hshopdot Hepoch.
  pose proof (ParseInt_int64Decimal epoch) as HP. rewrite Hepoch in HP.
  apply int64Decimal_decimal in Hepoch as [Hdec _].
  assert (Hplain : forall c, isDigit c = false -> c <> "+"%char -> c <> "-"%char ->
                             contains shop c = false ->
                             contains (shop ++ "_" ++ epoch) c
                             = Ascii.eqb "_" c).
  { intros c Hc Hp Hm Hs. rewrite !contains_app, Hs. cbn [contains orb].
    rewrite (decimal_chars _ _ c Hdec Hc Hp Hm). now rewrite !orb_false_r. }
  assert (Hstem : stem (dir ++ shop ++ "_" ++ epoch) = dir ++ shop ++ "_" ++ epoch).
  { unfold stem. rewrite Ext_none; try assumption.
    - cbn [len String.length]. rewrite Nat.sub_0_r. apply slice_to_all.
    - rewrite Hplain by (try reflexivity; try discriminate; assumption). reflexivity.
    - rewrite Hplain by (try reflexivity; try discriminate; assumption). reflexivity. }
  assert (Hbase : filepath.Base (dir ++ shop ++ "_" ++ epoch) = shop ++ "_" ++ epoch).
  { apply Base_in_dir; [assumption | |].
    - destruct shop; discriminate.
    - rewrite Hplain by (try reflexivity; try discriminate; assumption). reflexivity. }
  rewrite (getMetaFromObjName_tokens _ shop epoch []).
  - now rewrite HP.
  - rewrite Hstem, Hbase. change ("_" ++ epoch) with (String "_" epoch).
    rewrite Split_app by assumption. f_equal.
    apply Split_plain.
    apply (decimal_chars _ _ "_"%char Hdec); [reflexivity | discriminate | discriminate].
Qed.

Lemma getMetaFromObjName_without_extension_witness :
  getMetaFromObjName "uploads.v2/shop42_-86400"
    = Done ("shop42", time.toLocal (time.Unix (-86400) 0), None).
Proof.
  apply (getMetaFromObjName_without_extension "uploads.v2/" "shop42" "-86400" (-86400));
    reflexivity.
Defined.
